(** * ngicks/und: presence states and their JSON / XML codecs

    A shallow embedding of the option, und and elastic packages
    (src/opt.go, src/und.go, src/elastic/methods.go) and the properties of
    their state predicates, equality, accessors and codecs.

    Go values are modelled as the code has them: [Option] is the two-field
    struct, [Und] the struct around a nested [Option], a slice keeps the
    difference between nil and empty, a method with a pointer receiver takes
    the receiver and returns its new contents next to the error, and a call
    that may panic returns an [outcome]. *)

From Stdlib Require Import Bool List String Ascii Arith ZArith Lia.
Import ListNotations.

Set Implicit Arguments.

(** ** Go values: errors, panics, zero values, slices *)

Module go.

(** The [error] interface: nil, or an error value. *)
Inductive error (Err : Type) : Type :=
| nil_error
| an_error (e : Err).
Arguments nil_error {Err}.
Arguments an_error {Err} e.

(** A [(value, error)] result whose value is meaningless on failure. *)
Inductive result (Err A : Type) : Type :=
| Ok (a : A)
| Error (e : Err).
Arguments Ok {Err A} a.
Arguments Error {Err A} e.

(** A call that returns normally or panics. *)
Inductive outcome (A : Type) : Type :=
| Returns (a : A)
| Panics.
Arguments Returns {A} a.
Arguments Panics {A}.

(** [var zero T]. *)
Class Zero (A : Type) : Type := zero : A.

(** A slice, by value: the nil slice, or the elements of a non-nil one.
    Backing arrays and capacities are not represented. *)
Inductive slice (A : Type) : Type :=
| nil_slice
| Slice (l : list A).
Arguments nil_slice {A}.
Arguments Slice {A} l.

Definition elems {A} (s : slice A) : list A :=
  match s with
  | nil_slice => []
  | Slice l => l
  end.

Definition len {A} (s : slice A) : nat := List.length (elems s).

(** [make([]A, n)]: n zero values, never nil. *)
Definition make {A} `{Zero A} (n : nat) : slice A := Slice (repeat zero n).

(** [append(s, t...)]: nil only when s is nil and nothing is appended. *)
Definition append {A} (s t : slice A) : slice A :=
  match s, elems t with
  | nil_slice, [] => nil_slice
  | _, ts => Slice (elems s ++ ts)
  end.

(** [s[:len(s):len(s)]]: the same elements, capacity cut to the length. *)
Definition cap_to_len {A} (s : slice A) : slice A :=
  match s with
  | nil_slice => nil_slice
  | Slice l => Slice (firstn (List.length l) l)
  end.

(** [l[i] = x] on the elements of a slice; out of range is left alone
    (the loops below never index out of range). *)
Fixpoint set_index {A} (l : list A) (i : nat) (x : A) : list A :=
  match l, i with
  | [], _ => []
  | _ :: l', O => x :: l'
  | y :: l', S i' => y :: set_index l' i' x
  end.

(** [for i, x := range src { dst[i] = f(x) }], starting at index [i]. *)
Fixpoint range_assign {A B} (f : A -> B) (src : list A) (i : nat)
         (dst : list B) : list B :=
  match src with
  | [] => dst
  | x :: src' => range_assign f src' (S i) (set_index dst i (f x))
  end.

#[global] Instance Zero_slice {A} : Zero (slice A) := nil_slice.
#[global] Instance Zero_bool : Zero bool := false.
#[global] Instance Zero_Z : Zero Z := 0%Z.
(** A pointer is nil or points at a value: [option A] holds the value
    pointed at. The address is not represented, so two pointers are told
    apart only by being nil or not and by what they point at. *)
#[global] Instance Zero_pointer {A} : Zero (option A) := Datatypes.None.

End go.

Import go.

(** ** encoding/json, as far as the packages call it *)

(** [json.Marshal(v)] and [json.Unmarshal(data, &v)] at a Go type [A].
    Unmarshal returns what is left in the target next to the error: the
    library may have written part of the target before it fails. *)
Class JSON (Err A : Type) : Type := {
  json_Marshal : A -> result Err string;
  json_Unmarshal : string -> A -> A * error Err
}.

(** The parts of the library that do not depend on the target type.
    [valueText]: Unmarshal checks the whole input first and hands a type
    that implements UnmarshalJSON the text of the value.
    [arrayElements]: decoding into a slice, the scanner gives the texts of
    the array's elements, or nothing for the null literal, or rejects the
    input.
    [MarshalerError]: Marshal wraps the error of a MarshalJSON method. *)
Class Scanner (Err : Type) : Type := {
  valueText : string -> result Err string;
  arrayElements : string -> result Err (option (list string));
  MarshalerError : Err -> Err
}.

(** [data[0] == '['] *)
Definition opens_array (data : string) : bool :=
  match data with
  | String c _ => Ascii.eqb c "["
  | EmptyString => false
  end.

(** [len(data) >= 2 && data[0] == '[']: the guard of the array attempt of
    Elastic.UnmarshalJSON. *)
Definition array_guard (data : string) : bool :=
  (2 <=? String.length data) && opens_array data.

(** ** src/opt.go *)

Module opt.

Section Option.
Context {T : Type} `{Zero T}.

(** type Option[T any] struct { some bool; v T } *)
Record Option : Type := { some : bool; v : T }.

Definition Some (x : T) : Option := {| some := true; v := x |}.

Definition None : Option := {| some := false; v := zero |}.

Definition IsSome (o : Option) : bool := some o.

Definition IsSomeAnd (o : Option) (f : T -> bool) : bool :=
  if IsSome o then f (v o) else false.

Definition IsNone (o : Option) : bool := negb (IsSome o).

Definition IsZero (o : Option) : bool := IsNone o.

(** Value (called Get by und.go) returns the field as it is. *)
Definition Value (o : Option) : T := v o.

(** Pointer: nil for none, else a pointer to a copy. *)
Definition Pointer (o : Option) : option T :=
  if IsNone o then Datatypes.None else Datatypes.Some (v o).

Definition And (o u : Option) : Option :=
  if IsSome o then u else None.

Definition AndThen (o : Option) (f : T -> Option) : Option :=
  if IsSome o then f (Value o) else None.

Definition Filter (o : Option) (pred : T -> bool) : Option :=
  if IsSome o && pred (Value o) then o else None.

Definition Or (o u : Option) : Option :=
  if IsSome o then o else u.

Definition Xor (o u : Option) : Option :=
  if IsSome o && IsNone u then o
  else if IsNone o && IsSome u then u
  else None.

(** OrElse: [f] is a func() Option[T], called only for a none. *)
Definition OrElse (o : Option) (f : unit -> Option) : Option :=
  if IsSome o then o else f tt.

End Option.

Arguments Option T : clear implicits.

#[global] Instance Zero_Option {T} `{Zero T} : Zero (Option T) :=
  {| some := false; v := zero |}.

Section MapOption.
Context {T U : Type} `{Zero T} `{Zero U}.

Definition MapOption (o : Option T) (f : T -> U) : Option U :=
  if IsSome o then Some (f (Value o)) else None.

Definition MapOrOption (o : Option T) (defaultValue : U) (f : T -> U) : U :=
  if IsNone o then defaultValue else f (Value o).

Definition MapOrElseOption (o : Option T) (defaultFn : unit -> U) (f : T -> U)
  : U :=
  if IsNone o then defaultFn tt else f (Value o).

End MapOption.

Definition Map {T} `{Zero T} (o : Option T) (f : T -> T) : Option T :=
  MapOption o f.

Definition MapOr {T} `{Zero T} (o : Option T) (defaultValue : T) (f : T -> T)
  : T :=
  MapOrOption o defaultValue f.

Definition MapOrElse {T} `{Zero T} (o : Option T) (defaultFn : unit -> T)
  (f : T -> T) : T :=
  MapOrElseOption o defaultFn f.

Definition FlattenOption {T} `{Zero T} (o : Option (Option T)) : Option T :=
  if IsNone o then None
  else let v := Value o in
       if IsNone v then None else v.

(** *** Equal *)

(** What the run time knows of a type [T] when [equal] asks:
    [asEquality t] is the assertion [any(t).(Equality[T])], the Equal
    method bound to t when there is one; [asEqualityPtr t] the same for
    [any(&t)]; the other three fields give [any(t) == any(u)]: whether
    the dynamic types are identical, whether that type is comparable and
    what comparing the two values does. *)
Class Comparison (T : Type) : Type := {
  asEquality : T -> option (T -> outcome bool);
  asEqualityPtr : T -> option (T -> outcome bool);
  sameDynamicType : T -> T -> bool;
  comparable : T -> bool;
  compareValues : T -> T -> outcome bool
}.

Section Equal.
Context {T : Type} `{Zero T} `{Comparison T}.

(** [any(t) == any(u)]: values of different dynamic types differ; of
    one type that is not comparable, the comparison panics. *)
Definition interface_eq (t u : T) : outcome bool :=
  if sameDynamicType t u
  then if comparable t then compareValues t u else Panics
  else Returns false.

Definition equal (t u : T) : outcome bool :=
  match asEquality t with
  | Datatypes.Some eq => eq u
  | Datatypes.None =>
      match asEqualityPtr t with
      | Datatypes.Some eq => eq u
      | Datatypes.None => interface_eq t u
      end
  end.

Definition Equal (o other : Option T) : outcome bool :=
  if negb (some o) || negb (some other)
  then Returns (Bool.eqb (some o) (some other))
  else equal (v o) (v other).

End Equal.

(** Option[T] has the method Equal, so it is found by the first
    assertion of [equal] at Option[T]. *)
#[global] Instance Comparison_Option {T} `{Zero T} `{Comparison T}
  : Comparison (Option T) := {
  asEquality := fun o => Datatypes.Some (fun other => Equal o other);
  asEqualityPtr := fun o => Datatypes.Some (fun other => Equal o other);
  sameDynamicType := fun _ _ => true;
  comparable := fun o => comparable (v o);
  compareValues := fun o other =>
    if Bool.eqb (some o) (some other)
    then compareValues (v o) (v other)
    else Returns false
}.

(** *** JSON *)

Section JSON.
Context {Err T : Type} `{Zero T} `{JSON Err T}.

Definition MarshalJSON (o : Option T) : result Err string :=
  if negb (some o) then Ok "null"%string else json_Marshal (v o).

Definition UnmarshalJSON (data : string) (o : Option T)
  : Option T * error Err :=
  if String.eqb data "null"
  then ({| some := false; v := zero |}, nil_error)
  else
    let '(v', err) := json_Unmarshal data (v o) in
    match err with
    | an_error e => ({| some := some o; v := v' |}, an_error e)
    | nil_error => ({| some := true; v := v' |}, nil_error)
    end.

End JSON.

End opt.


(** How the library treats Option[T], which implements both codec
    interfaces: Marshal calls MarshalJSON and wraps its error (the text
    it returns is the null literal or the library's own output, which the
    library's compaction pass leaves as it is); Unmarshal checks the input
    and calls UnmarshalJSON on the text of the value. *)
#[global] Instance JSON_Option {Err T} `{Zero T} `{JSON Err T} `{Scanner Err}
  : JSON Err (opt.Option T) := {
  json_Marshal := fun o =>
    match opt.MarshalJSON o with
    | Ok w => Ok w
    | Error e => Error (MarshalerError e)
    end;
  json_Unmarshal := fun data o =>
    match valueText data with
    | Error e => (o, an_error e)
    | Ok raw => opt.UnmarshalJSON raw o
    end
}.

(** Modelled from the spec: option.Options[T], whose declaration is not
    among the sources, is the spec's sequence of Presence<T>: a Go slice
    of Option[T] with no codec methods of its own. *)
Definition Options (T : Type) : Type := slice (opt.Option T).

Section slices.
Context {Err T : Type} `{Zero T} `{JSON Err T} `{Scanner Err}.

(** The library's slice encoder: the elements in order, the first error
    ends it. *)
Fixpoint marshal_elements (os : list (opt.Option T))
  : result Err (list string) :=
  match os with
  | [] => Ok []
  | o :: os' =>
      match json_Marshal o with
      | Error e => Error e
      | Ok w =>
          match marshal_elements os' with
          | Error e => Error e
          | Ok ws => Ok (w :: ws)
          end
      end
  end.

(** A JSON array of the given element texts. *)
Definition array_text (ws : list string) : string :=
  ("[" ++ String.concat "," ws ++ "]")%string.

(** A nil slice encodes as the null literal, any other as an array. *)
Definition marshal_slice (s : Options T) : result Err string :=
  match s with
  | nil_slice => Ok "null"%string
  | Slice os =>
      match marshal_elements os with
      | Error e => Error e
      | Ok ws => Ok (array_text ws)
      end
  end.

(** The library's slice decoder on the element texts: each element starts
    as the zero Option and is handed its text; the first error ends it. *)
Fixpoint unmarshal_elements (raws : list string)
  : list (opt.Option T) * error Err :=
  match raws with
  | [] => ([], nil_error)
  | raw :: raws' =>
      let '(o, err) := opt.UnmarshalJSON raw zero in
      match err with
      | an_error e => ([o], an_error e)
      | nil_error =>
          let '(os, err') := unmarshal_elements raws' in
          (o :: os, err')
      end
  end.

(** The null literal makes the slice nil, an array (also the empty one)
    makes it non-nil. *)
Definition unmarshal_slice (data : string) (s : Options T)
  : Options T * error Err :=
  match arrayElements data with
  | Error e => (s, an_error e)
  | Ok Datatypes.None => (nil_slice, nil_error)
  | Ok (Datatypes.Some raws) =>
      let '(os, err) := unmarshal_elements raws in
      (Slice os, err)
  end.

End slices.

#[global] Instance JSON_Options {Err T} `{Zero T} `{JSON Err T} `{Scanner Err}
  : JSON Err (Options T) := {
  json_Marshal := marshal_slice;
  json_Unmarshal := unmarshal_slice
}.

(** ** src/und.go: Und *)

Module und.

Section Und.
Context {T : Type} `{Zero T}.

(** type Und[T any] struct { opt option.Option[option.Option[T]] } *)
Record Und : Type := { opt : opt.Option (opt.Option T) }.

Definition Defined (t : T) : Und := {| opt := opt.Some (opt.Some t) |}.

Definition Null : Und := {| opt := opt.Some opt.None |}.

Definition Undefined : Und := {| opt := zero |}.

(** FromPointer: nil gives undefined, any other pointer the value it
    points at. *)
Definition FromPointer (p : option T) : Und :=
  match p with
  | Datatypes.None => Undefined
  | Datatypes.Some t => Defined t
  end.

Definition FromOption (o : opt.Option (opt.Option T)) : Und := {| opt := o |}.

Definition IsDefined (u : Und) : bool :=
  opt.IsSome (opt u) && opt.IsSome (opt.Value (opt u)).

Definition IsNull (u : Und) : bool :=
  opt.IsSome (opt u) && opt.IsNone (opt.Value (opt u)).

Definition IsUndefined (u : Und) : bool := opt.IsNone (opt u).

Definition IsZero (u : Und) : bool := IsUndefined u.

(** Get (called Value by the elastic package). *)
Definition Get (u : Und) : T :=
  if IsDefined u then opt.Value (opt.Value (opt u)) else zero.

Definition Pointer (u : Und) : option T :=
  if negb (IsDefined u) then Datatypes.None
  else opt.Pointer (opt.Value (opt u)).

Definition DoublePointer (u : Und) : option (option T) :=
  if IsUndefined u then Datatypes.None
  else if IsNull u then Datatypes.Some Datatypes.None
  else Datatypes.Some (Datatypes.Some (opt.Value (opt.Value (opt u)))).

Definition Unwrap (u : Und) : opt.Option (opt.Option T) := opt u.

Definition Map (u : Und)
  (f : opt.Option (opt.Option T) -> opt.Option (opt.Option T)) : Und :=
  {| opt := f (opt u) |}.

Definition Equal `{opt.Comparison T} (u other : Und) : outcome bool :=
  opt.Equal (opt u) (opt other).

End Und.

Arguments Und T : clear implicits.

#[global] Instance Zero_Und {T} `{Zero T} : Zero (Und T) := {| opt := zero |}.

Section JSON.
Context {Err T : Type} `{Zero T} `{JSON Err T}.

Definition MarshalJSON (u : Und T) : result Err string :=
  if IsUndefined u || IsNull u then Ok "null"%string
  else json_Marshal (opt.Value (opt.Value (opt u))).

Definition UnmarshalJSON (data : string) (u : Und T) : Und T * error Err :=
  if String.eqb data "null" then (Null, nil_error)
  else
    let '(t, err) := json_Unmarshal data (zero : T) in
    match err with
    | an_error e => (u, an_error e)
    | nil_error => (Defined t, nil_error)
    end.

End JSON.

End und.

(** Und[T] implements json.Marshaler. *)
Definition json_Marshal_Und {Err T} `{Zero T} `{JSON Err T} `{Scanner Err}
  (u : und.Und T) : result Err string :=
  match und.MarshalJSON u with
  | Ok w => Ok w
  | Error e => Error (MarshalerError e)
  end.

(** ** src/und.go (package elastic) and src/elastic/methods.go: Elastic *)

Module elastic.

(** Elastic[T] is a defined type over Und[option.Options[T]]: the und.Und
    that methods.go imports (the copy of the package in und.go is written
    over sliceund.Und, with the same methods word for word). *)
Definition Elastic (T : Type) : Type := und.Und (Options T).

Section Elastic.
Context {T : Type} `{Zero T}.

Definition Null : Elastic T := und.Null.

Definition Undefined : Elastic T := und.Undefined.

Definition FromOptions (options : Options T) : Elastic T :=
  und.Defined options.

Definition inner (e : Elastic T) : und.Und (Options T) := e.

Definition IsDefined (e : Elastic T) : bool := und.IsDefined (inner e).

Definition IsNull (e : Elastic T) : bool := und.IsNull (inner e).

Definition IsUndefined (e : Elastic T) : bool := und.IsUndefined (inner e).

Definition IsZero (e : Elastic T) : bool := IsUndefined e.

Definition Value (e : Elastic T) : T :=
  if IsDefined e
  then match elems (und.Get (inner e)) with
       | o :: _ => opt.Value o
       | [] => zero
       end
  else zero.

Definition Values (e : Elastic T) : slice T :=
  if negb (IsDefined e) then nil_slice
  else
    let opts := und.Get (inner e) in
    let vs := make (len opts) in
    Slice (range_assign opt.Value (elems opts) 0 (elems vs)).

Definition Pointer (e : Elastic T) : option T :=
  if IsDefined e
  then match elems (und.Get (inner e)) with
       | o :: _ => if opt.IsSome o then Datatypes.Some (opt.Value o)
                   else Datatypes.None
       | [] => Datatypes.None
       end
  else Datatypes.None.

Definition Pointers (e : Elastic T) : slice (option T) :=
  if negb (IsDefined e) then nil_slice
  else
    let opts := und.Get (inner e) in
    let ptrs := make (len opts) in
    Slice (range_assign opt.Pointer (elems opts) 0 (elems ptrs)).

Definition Unwrap (e : Elastic T) : und.Und (Options T) := inner e.

(** Map, with the guard of its inner function as it is written: an
    option that is some is returned as it is, so is one that is none. *)
Definition Map (e : Elastic T)
  (f : und.Und (Options T) -> und.Und (Options T)) : Elastic T :=
  f (und.Map (inner e) (fun o =>
       if negb (opt.IsNone o) then o
       else
         let v := opt.Value o in
         if opt.IsNone v then o
         else
           let vv := opt.Value v in
           opt.Some (opt.Some (cap_to_len vv)))).

Definition FromValue (t : T) : Elastic T :=
  FromOptions (Slice [opt.Some t]).

Definition FromPointer (t : option T) : Elastic T :=
  match t with
  | Datatypes.None => Undefined
  | Datatypes.Some x => FromValue x
  end.

Definition FromValues (ts : slice T) : Elastic T :=
  let opts := make (len ts) in
  FromOptions (Slice (range_assign opt.Some (elems ts) 0 (elems opts))).

(** FromPointers of methods.go: the options are made with the length of
    [ps] and the converted pointers are then appended to them. *)
Definition FromPointers (ps : slice (option T)) : Elastic T :=
  let opts : Options T := make (len ps) in
  FromOptions
    (fold_left
       (fun opts p =>
          match p with
          | Datatypes.None => append opts (Slice [opt.None])
          | Datatypes.Some x => append opts (Slice [opt.Some x])
          end)
       (elems ps) opts).

End Elastic.

(** WrapPointer keeps the pointer as the value: Elastic[*T]. *)
Definition WrapPointer {T} (t : option T) : Elastic (option T) :=
  match t with
  | Datatypes.None => Undefined
  | Datatypes.Some _ => FromValue t
  end.

Section JSON.
Context {Err T : Type} `{Zero T} `{JSON Err T} `{Scanner Err}.

Definition MarshalJSON (u : Elastic T) : result Err string :=
  json_Marshal_Und (inner u).

Definition UnmarshalJSON (data : string) (e : Elastic T)
  : Elastic T * error Err :=
  if String.eqb data "null" then (Null, nil_error)
  else
    let scalar :=
      let '(t, err) := json_Unmarshal data (zero : opt.Option T) in
      match err with
      | an_error e' => (e, an_error e')
      | nil_error => (FromOptions (Slice [t]), nil_error)
      end in
    if (2 <=? String.length data) && opens_array data
    then
      let '(t, err) := json_Unmarshal data (zero : Options T) in
      match err with
      | nil_error => (FromOptions t, nil_error)
      | an_error _ => scalar
      end
    else scalar.

End JSON.

Section XML.
Context {Err T : Type} `{Zero T}.

(** encoding/xml: the decoder, the start element, and
    [d.DecodeElement(&t, &start)] at a slice of options, which returns the
    decoder after the call, what is left in the target, and the error. *)
Variables Decoder StartElement : Type.
Variable DecodeElement :
  Decoder -> StartElement -> Options T -> Decoder * Options T * error Err.

Definition UnmarshalXML (d : Decoder) (start : StartElement) (o : Elastic T)
  : Decoder * Elastic T * error Err :=
  let '(d', t, err) := DecodeElement d start zero in
  match err with
  | an_error e => (d', o, an_error e)
  | nil_error =>
      if len (und.Get (inner o)) =? 0
      then (d', FromOptions t, nil_error)
      else
        (d',
         Map o (fun u =>
           und.Map u (fun o =>
             opt.Map o (fun v =>
               opt.Map v (fun v => append v t)))),
         nil_error)
  end.

End XML.

End elastic.

(** ** Concrete instances

    A small instance of the library for T = *bool with errors as strings,
    and the test suite's CustomizedEquality; the general theorems are
    evaluated on them. *)

Module sample.

(** *bool: nil encodes as the null literal, which also decodes to nil. *)
Definition marshal_bool_pointer (p : option bool) : result string string :=
  match p with
  | Datatypes.None => Ok "null"%string
  | Datatypes.Some true => Ok "true"%string
  | Datatypes.Some false => Ok "false"%string
  end.

Definition unmarshal_bool_pointer (data : string) (p : option bool)
  : option bool * error string :=
  if String.eqb data "null" then (Datatypes.None, nil_error)
  else if String.eqb data "true" then (Datatypes.Some true, nil_error)
  else if String.eqb data "false" then (Datatypes.Some false, nil_error)
  else (p, an_error "cannot unmarshal into Go value of type bool"%string).

#[global] Instance JSON_bool_pointer : JSON string (option bool) := {
  json_Marshal := marshal_bool_pointer;
  json_Unmarshal := unmarshal_bool_pointer
}.

(** The text before the final closing bracket. *)
Fixpoint until_close (s : string) : option string :=
  match s with
  | EmptyString => Datatypes.None
  | String c s' =>
      match s' with
      | EmptyString =>
          if Ascii.eqb c "]" then Datatypes.Some EmptyString
          else Datatypes.None
      | _ =>
          match until_close s' with
          | Datatypes.Some b => Datatypes.Some (String c b)
          | Datatypes.None => Datatypes.None
          end
      end
  end.

(** The body of an array of literals, cut at its commas. *)
Fixpoint split_commas (s cur : string) : list string :=
  match s with
  | EmptyString => [cur]
  | String c s' =>
      if Ascii.eqb c ","
      then cur :: split_commas s' EmptyString
      else split_commas s' (cur ++ String c EmptyString)%string
  end.

Definition array_elements (data : string)
  : result string (option (list string)) :=
  if String.eqb data "null" then Ok Datatypes.None
  else
    match data with
    | String c rest =>
        if Ascii.eqb c "["
        then
          match until_close rest with
          | Datatypes.Some EmptyString => Ok (Datatypes.Some [])
          | Datatypes.Some body =>
              Ok (Datatypes.Some (split_commas body EmptyString))
          | Datatypes.None => Error "unexpected end of JSON input"%string
          end
        else Error "cannot unmarshal into Go value of type []T"%string
    | EmptyString => Error "unexpected end of JSON input"%string
    end.

#[global] Instance Scanner_sample : Scanner string := {
  valueText := fun data => Ok data;
  arrayElements := array_elements;
  MarshalerError := fun e => ("json: error calling MarshalJSON: " ++ e)%string
}.

(** type CustomizedEquality struct { V *int }, the pointer as its address
    and the integer it points at; Equal compares the integers modulo 30,
    the built-in comparison of the struct compares the addresses. *)
Record CustomizedEquality : Type := { V_addr : nat; V_val : Z }.

Definition CustomizedEquality_Equal (e other : CustomizedEquality) : bool :=
  (Z.rem (V_val e) 30 =? Z.rem (V_val other) 30)%Z.

#[global] Instance Zero_CustomizedEquality : Zero CustomizedEquality :=
  {| V_addr := 0; V_val := 0 |}.

#[global] Instance Comparison_CustomizedEquality
  : opt.Comparison CustomizedEquality := {
  opt.asEquality := fun e =>
    Datatypes.Some (fun other => Returns (CustomizedEquality_Equal e other));
  opt.asEqualityPtr := fun e =>
    Datatypes.Some (fun other => Returns (CustomizedEquality_Equal e other));
  opt.sameDynamicType := fun _ _ => true;
  opt.comparable := fun _ => true;
  opt.compareValues := fun e other => Returns (V_addr e =? V_addr other)
}.

(** int: no Equal method, compared by the built-in operator. *)
#[global] Instance Comparison_int : opt.Comparison Z := {
  opt.asEquality := fun _ => Datatypes.None;
  opt.asEqualityPtr := fun _ => Datatypes.None;
  opt.sameDynamicType := fun _ _ => true;
  opt.comparable := fun _ => true;
  opt.compareValues := fun a b => Returns (a =? b)%Z
}.

(** type NonComparableButEquality []string of the test suite: a slice
    type, so not comparable, with the method Equal that compares the
    lengths and then the elements index by index. *)
Definition NonComparableButEquality : Type := slice string.

Definition NonComparableButEquality_Equal
  (e other : NonComparableButEquality) : bool :=
  if negb (len e =? len other) then false
  else
    forallb
      (fun idx =>
         String.eqb (nth idx (elems e) EmptyString)
                    (nth idx (elems other) EmptyString))
      (seq 0 (len e)).

Definition Comparison_NonComparableButEquality
  : opt.Comparison NonComparableButEquality := {|
  opt.asEquality := fun e =>
    Datatypes.Some
      (fun other => Returns (NonComparableButEquality_Equal e other));
  opt.asEqualityPtr := fun e =>
    Datatypes.Some
      (fun other => Returns (NonComparableButEquality_Equal e other));
  opt.sameDynamicType := fun _ _ => true;
  opt.comparable := fun _ => false;
  opt.compareValues := fun _ _ => Panics
|}.

(** JSON white space, and a scanner that skips it around the value as
    encoding/json does. *)
Definition is_space (c : ascii) : bool :=
  Ascii.eqb c " " || Ascii.eqb c "009" || Ascii.eqb c "010"
  || Ascii.eqb c "013".

Fixpoint skip_space (s : string) : string :=
  match s with
  | EmptyString => EmptyString
  | String c s' => if is_space c then skip_space s' else s
  end.

Fixpoint drop_trailing_space (s : string) : string :=
  match s with
  | EmptyString => EmptyString
  | String c s' =>
      match drop_trailing_space s' with
      | EmptyString =>
          if is_space c then EmptyString else String c EmptyString
      | r => String c r
      end
  end.

Definition trim (s : string) : string := drop_trailing_space (skip_space s).

Definition Scanner_trimming : Scanner string := {|
  valueText := fun data => Ok (trim data);
  arrayElements := fun data => array_elements (trim data);
  MarshalerError := fun e => ("json: error calling MarshalJSON: " ++ e)%string
|}.

(** *bool as encoding/json decodes a JSON number into it: the value has
    the wrong type, and by then a nil target has been made to point at a
    new bool, which is what the failing call leaves. *)
Definition is_digit (c : ascii) : bool :=
  Ascii.leb "0" c && Ascii.leb c "9".

Fixpoint all_digits (s : string) : bool :=
  match s with
  | EmptyString => true
  | String c s' => is_digit c && all_digits s'
  end.

Definition unmarshal_bool_pointer_allocating (data : string) (p : option bool)
  : option bool * error string :=
  if String.eqb data "null" then (Datatypes.None, nil_error)
  else if String.eqb data "true" then (Datatypes.Some true, nil_error)
  else if String.eqb data "false" then (Datatypes.Some false, nil_error)
  else if negb (String.eqb data "") && all_digits data
  then (match p with
        | Datatypes.None => Datatypes.Some false
        | Datatypes.Some b => Datatypes.Some b
        end,
        an_error "json: cannot unmarshal number into Go value of type bool"%string)
  else (p, an_error "invalid character looking for beginning of value"%string).

Definition JSON_bool_pointer_allocating : JSON string (option bool) := {|
  json_Marshal := marshal_bool_pointer;
  json_Unmarshal := unmarshal_bool_pointer_allocating
|}.

(** A func value: encoding/json rejects the type in both directions. *)
#[global] Instance Zero_func : Zero unit := tt.

#[global] Instance JSON_func : JSON string unit := {
  json_Marshal := fun _ => Error "json: unsupported type: func()"%string;
  json_Unmarshal := fun _ f =>
    (f, an_error "json: cannot unmarshal into Go value of type func()"%string)
}.

End sample.

(** ** Vocabulary of the statements *)

(** Exactly one of three tests holds. *)
Definition exactly_one (a b c : bool) : bool :=
  (a && negb b && negb c) || (negb a && b && negb c) || (negb a && negb b && c).

Section states.
Context {T : Type} `{Zero T}.

(** An Und in the null state, by its three tests. *)
Definition und_is_null (u : und.Und T) : Prop :=
  und.IsNull u = true /\ und.IsDefined u = false
  /\ und.IsUndefined u = false.

(** An Und in the defined state that holds [t]. *)
Definition und_is_defined_with (u : und.Und T) (t : T) : Prop :=
  und.IsDefined u = true /\ und.IsNull u = false
  /\ und.IsUndefined u = false /\ und.Get u = t.

(** An Elastic in the null state, by its three tests. *)
Definition elastic_is_null (e : elastic.Elastic T) : Prop :=
  elastic.IsNull e = true /\ elastic.IsDefined e = false
  /\ elastic.IsUndefined e = false.

(** An Elastic in the defined state whose backing sequence is [t]. *)
Definition elastic_is_defined_with (e : elastic.Elastic T) (t : Options T)
  : Prop :=
  elastic.IsDefined e = true /\ elastic.IsNull e = false
  /\ elastic.IsUndefined e = false /\ und.Get (elastic.inner e) = t.

End states.

Section vocabulary.
Context {Err T : Type} `{Zero T} `{JSON Err T}.

(** The token of one element of an encoded Elastic: the null literal for
    none, T's own encoding of the held value for some. *)
Definition element_token (o : opt.Option T) (w : string) : Prop :=
  (opt.IsNone o = true /\ w = "null"%string)
  \/ (opt.IsSome o = true /\ json_Marshal (opt.Value o) = Ok w).

(** A value of T that T's own codec encodes as [w] and decodes from [w]. *)
Definition JSONEncodable (a : T) (w : string) : Prop :=
  json_Marshal a = Ok w /\ json_Unmarshal w (zero : T) = (a, nil_error).

(** A none that holds the zero value, as the comment of Value expects:
    the Option is then the one None[T]() returns. *)
Definition canonical (o : opt.Option T) : Prop :=
  opt.IsNone o = true -> o = opt.None.

(** An element and its token on the wire: None and the null literal, or
    Some of a value that T's codec encodes and decodes back, with an
    encoding other than the null literal. *)
Definition round_trip_token (o : opt.Option T) (w : string) : Prop :=
  (o = opt.None /\ w = "null"%string)
  \/ (exists a, o = opt.Some a /\ JSONEncodable a w /\ w <> "null"%string).

End vocabulary.

(** Unfolding of the Option combinators and accessors. *)
Ltac unfold_opt :=
  unfold opt.And, opt.Or, opt.Xor, opt.OrElse, opt.AndThen, opt.Filter,
    opt.IsSomeAnd, opt.MapOption, opt.MapOrOption, opt.MapOrElseOption,
    opt.FlattenOption, opt.IsNone, opt.IsSome, opt.Value, opt.Some, opt.None
    in *.

(** Unfolding of the Und constructors and accessors. *)
Ltac unfold_und :=
  unfold und.FromPointer, und.Pointer, und.DoublePointer, und.Get,
    und.IsDefined, und.IsNull, und.IsUndefined, und.Defined, und.Null,
    und.Undefined, und.Equal, opt.Pointer, opt.IsNone, opt.IsSome,
    opt.Value, opt.Some, opt.None in *.

(** * Properties *)

(** ** Slices and the indexed loops *)

Lemma set_index_app {A} (pre : list A) (y x : A) (rest : list A) :
  set_index (pre ++ y :: rest) (List.length pre) x = pre ++ x :: rest.
Proof.
  induction pre as [|p pre IH]; simpl; [reflexivity|].
  now rewrite IH.
Qed.

Lemma range_assign_app {A B} (f : A -> B) (src : list A) :
  forall (pre rest : list B),
    List.length rest = List.length src ->
    range_assign f src (List.length pre) (pre ++ rest) = pre ++ map f src.
Proof.
  induction src as [|x src IH]; intros pre rest Hlen.
  - destruct rest; [reflexivity | discriminate].
  - destruct rest as [|y rest]; [discriminate|].
    simpl. rewrite set_index_app.
    replace (S (List.length pre)) with (List.length (pre ++ [f x]))
      by (rewrite length_app; simpl; lia).
    replace (pre ++ f x :: rest) with ((pre ++ [f x]) ++ rest)
      by (rewrite <- app_assoc; reflexivity).
    rewrite IH by (simpl in Hlen; lia).
    rewrite <- app_assoc. reflexivity.
Qed.

(** The loop [for i, x := range src { dst[i] = f(x) }] over a fresh
    [make(len(src))] is the element-wise image of [src]. *)
Lemma range_assign_make {A B} `{Zero B} (f : A -> B) (src : list A) :
  range_assign f src 0 (elems (make (List.length src))) = map f src.
Proof.
  unfold make. simpl.
  apply (range_assign_app f src [] (repeat zero (List.length src))).
  apply repeat_length.
Qed.

Lemma FromValues_eq {T} `{Zero T} (ts : slice T) :
  elastic.FromValues ts = elastic.FromOptions (Slice (map opt.Some (elems ts))).
Proof.
  unfold elastic.FromValues, len. now rewrite range_assign_make.
Qed.

(** ** Und: the three states *)

Section Und_states.
Context {T : Type} `{Zero T}.

(** C5. Every Und value, and so each one built by Defined, Null, Undefined
    or FromPointer and the zero value, satisfies exactly one of
    IsUndefined, IsNull and IsDefined; the constructors land in the state
    they are named after (FromPointer(nil) and the zero value are
    undefined, FromPointer of a pointer is defined); IsZero is
    IsUndefined. *)
Theorem Und_exactly_one_state :
  (forall u : und.Und T,
      exactly_one (und.IsUndefined u) (und.IsNull u) (und.IsDefined u) = true
      /\ und.IsZero u = und.IsUndefined u)
  /\ (forall t : T, und.IsDefined (und.Defined t) = true)
  /\ und.IsNull (und.Null (T:=T)) = true
  /\ und.IsUndefined (und.Undefined (T:=T)) = true
  /\ und.IsUndefined (zero : und.Und T) = true
  /\ und.IsUndefined (und.FromPointer (T:=T) Datatypes.None) = true
  /\ (forall t : T, und.IsDefined (und.FromPointer (Datatypes.Some t)) = true).
Proof.
  repeat split; try reflexivity.
  destruct u as [[s [s' x]]].
  unfold und.IsUndefined, und.IsNull, und.IsDefined, opt.IsNone, opt.IsSome,
    opt.Value; simpl.
  destruct s, s'; reflexivity.
Qed.

End Und_states.

(** ** Und: UnmarshalJSON *)

Section Und_JSON.
Context {Err T : Type} `{Zero T} `{JSON Err T}.

(** C3. Und.UnmarshalJSON leaves a null Und on the null literal; on any
    other input it leaves a defined Und that holds t when T's decoder
    succeeds with t, and returns the decoder's error, leaving the receiver
    as it was, when that fails; a successful call never leaves the
    receiver undefined, which is the state of the zero value. *)
Theorem Und_UnmarshalJSON_outcomes : forall (data : string) (u : und.Und T),
  (data = "null"%string ->
   exists u', und.UnmarshalJSON data u = (u', nil_error)
              /\ u' = und.Null /\ und_is_null u')
  /\ (data <> "null"%string ->
      forall t, json_Unmarshal data (zero : T) = (t, nil_error) ->
      exists u', und.UnmarshalJSON data u = (u', nil_error)
                 /\ u' = und.Defined t /\ und_is_defined_with u' t)
  /\ (data <> "null"%string ->
      forall t e, json_Unmarshal data (zero : T) = (t, an_error e) ->
                  und.UnmarshalJSON data u = (u, an_error e))
  /\ (forall u', und.UnmarshalJSON data u = (u', nil_error) ->
                 und.IsUndefined u' = false)
  /\ und.IsUndefined (zero : und.Und T) = true.
Proof.
  intros data u. unfold und.UnmarshalJSON.
  destruct (String.eqb_spec data "null") as [Heq|Hne].
  - split; [|split; [|split; [|split]]]; try contradiction.
    + intros _. exists und.Null. repeat split.
    + intros u' Hu'. now inversion Hu'.
    + reflexivity.
  - split; [|split; [|split; [|split]]]; try contradiction.
    + intros _ t Ht. rewrite Ht. exists (und.Defined t). repeat split.
    + intros _ t e Ht. now rewrite Ht.
    + intros u'. destruct (json_Unmarshal data zero) as [t [|e]];
        intros Hu'; inversion Hu'; reflexivity.
    + reflexivity.
Qed.

End Und_JSON.

(** ** Elastic: UnmarshalJSON *)

Section Elastic_JSON.
Context {Err T : Type} `{Zero T} `{JSON Err T} `{Scanner Err}.

(** What the scalar attempt leaves: the receiver and the error on
    failure, a one-element sequence on success. *)
Lemma UnmarshalJSON_scalar (data : string) (e : elastic.Elastic T) :
  data <> "null"%string ->
  (array_guard data = false
   \/ exists t er, json_Unmarshal data (zero : Options T) = (t, an_error er)) ->
  elastic.UnmarshalJSON data e =
  match json_Unmarshal data (zero : opt.Option T) with
  | (o, nil_error) => (elastic.FromOptions (Slice [o]), nil_error)
  | (_, an_error er) => (e, an_error er)
  end.
Proof.
  intros Hne Hcase. unfold elastic.UnmarshalJSON, array_guard in *.
  destruct (String.eqb_spec data "null") as [|_]; [contradiction|].
  destruct Hcase as [Hno | (t & er & Ht)].
  - rewrite Hno.
    destruct (json_Unmarshal data zero) as [o [|er]]; reflexivity.
  - destruct ((2 <=? String.length data) && opens_array data).
    + rewrite Ht.
      destruct (json_Unmarshal data zero) as [o [|er']]; reflexivity.
    + destruct (json_Unmarshal data zero) as [o [|er']]; reflexivity.
Qed.

(** C1, as the code has it. Elastic.UnmarshalJSON decides in this order:
    the null literal leaves a null Elastic; else input of at least two
    bytes whose first byte is the array opener is first decoded as a
    sequence of Option[T], and success leaves a defined Elastic with that
    sequence; when that attempt fails, or the input is shorter or starts
    with another byte (white space before the opener included), the whole
    input is decoded as one Option[T], and success leaves a defined
    Elastic with that one element; when this fails too the error returned
    is the one of this second attempt and the receiver is as it was. *)
Theorem Elastic_UnmarshalJSON_order :
  forall (data : string) (e : elastic.Elastic T),
  (data = "null"%string ->
   exists e', elastic.UnmarshalJSON data e = (e', nil_error)
              /\ e' = elastic.Null /\ elastic_is_null e')
  /\ (data <> "null"%string -> array_guard data = true ->
      forall t, json_Unmarshal data (zero : Options T) = (t, nil_error) ->
      exists e', elastic.UnmarshalJSON data e = (e', nil_error)
                 /\ e' = elastic.FromOptions t
                 /\ elastic_is_defined_with e' t)
  /\ (data <> "null"%string ->
      (array_guard data = false
       \/ exists t er,
            json_Unmarshal data (zero : Options T) = (t, an_error er)) ->
      forall o, json_Unmarshal data (zero : opt.Option T) = (o, nil_error) ->
      exists e', elastic.UnmarshalJSON data e = (e', nil_error)
                 /\ e' = elastic.FromOptions (Slice [o])
                 /\ elastic_is_defined_with e' (Slice [o]))
  /\ (data <> "null"%string ->
      (array_guard data = false
       \/ exists t er,
            json_Unmarshal data (zero : Options T) = (t, an_error er)) ->
      forall o er, json_Unmarshal data (zero : opt.Option T) = (o, an_error er) ->
      elastic.UnmarshalJSON data e = (e, an_error er)).
Proof.
  intros data e. split; [|split; [|split]].
  - intros ->. exists elastic.Null. repeat split.
  - intros Hne Hguard t Ht. exists (elastic.FromOptions t).
    split; [|repeat split].
    unfold elastic.UnmarshalJSON. unfold array_guard in Hguard.
    destruct (String.eqb_spec data "null") as [|_]; [contradiction|].
    now rewrite Hguard, Ht.
  - intros Hne Hcase o Ho. exists (elastic.FromOptions (Slice [o])).
    split; [|repeat split].
    rewrite UnmarshalJSON_scalar by assumption. now rewrite Ho.
  - intros Hne Hcase o er Ho.
    rewrite UnmarshalJSON_scalar by assumption. now rewrite Ho.
Qed.

(** C9. A failing UnmarshalJSON leaves the receiver as it was, for Und
    and for Elastic. *)
Theorem UnmarshalJSON_failure_keeps_receiver :
  (forall (data : string) (u u' : und.Und T) (er : Err),
      und.UnmarshalJSON data u = (u', an_error er) -> u' = u)
  /\ (forall (data : string) (e e' : elastic.Elastic T) (er : Err),
      elastic.UnmarshalJSON data e = (e', an_error er) -> e' = e).
Proof.
  split.
  - intros data u u' er. unfold und.UnmarshalJSON.
    destruct (String.eqb data "null"); [discriminate|].
    destruct (json_Unmarshal data zero) as [t [|er']]; intros Hr;
      inversion Hr; reflexivity.
  - intros data e e' er. unfold elastic.UnmarshalJSON.
    destruct (String.eqb data "null"); [discriminate|].
    destruct ((2 <=? String.length data) && opens_array data).
    + destruct (json_Unmarshal data (zero : Options T)) as [t [|er1]].
      * discriminate.
      * destruct (json_Unmarshal data (zero : opt.Option T)) as [o [|er2]];
          intros Hr; inversion Hr; reflexivity.
    + destruct (json_Unmarshal data (zero : opt.Option T)) as [o [|er2]];
        intros Hr; inversion Hr; reflexivity.
Qed.

End Elastic_JSON.

(** ** Elastic: Values and UnmarshalXML *)

Section Elastic_values.
Context {T : Type} `{Zero T}.

Lemma not_defined (e : elastic.Elastic T) :
  elastic.IsNull e = true \/ elastic.IsUndefined e = true ->
  elastic.IsDefined e = false.
Proof.
  destruct e as [[s [s' x]]].
  unfold elastic.IsNull, elastic.IsUndefined, elastic.IsDefined, elastic.inner,
    und.IsNull, und.IsUndefined, und.IsDefined, opt.IsNone, opt.IsSome,
    opt.Value; simpl.
  destruct s, s'; simpl; intros [Hc|Hc]; congruence.
Qed.

Lemma Values_defined (e : elastic.Elastic T) :
  elastic.IsDefined e = true ->
  elastic.Values e = Slice (map opt.Value (elems (und.Get (elastic.inner e)))).
Proof.
  intros Hd. unfold elastic.Values. rewrite Hd. cbn [negb]. cbv zeta.
  unfold len. now rewrite range_assign_make.
Qed.

(** For a defined Elastic, Values is the non-nil slice of what Value
    returns for each option of the backing sequence: it is as long as that
    sequence and holds at each index the value of a some, and the zero
    value of T for the none that None[T]() returns; for a null or undefined
    Elastic it is nil. *)
Theorem Elastic_Values_spec : forall e : elastic.Elastic T,
  (elastic.IsDefined e = true ->
   let opts := und.Get (elastic.inner e) in
   elastic.Values e = Slice (map opt.Value (elems opts))
   /\ len (elastic.Values e) = len opts
   /\ (forall i x, nth_error (elems opts) i = Datatypes.Some (opt.Some x) ->
                   nth_error (elems (elastic.Values e)) i = Datatypes.Some x)
   /\ (forall i, nth_error (elems opts) i = Datatypes.Some opt.None ->
                 nth_error (elems (elastic.Values e)) i = Datatypes.Some zero))
  /\ (elastic.IsNull e = true \/ elastic.IsUndefined e = true ->
      elastic.Values e = nil_slice).
Proof.
  intros e. split.
  - intros Hd opts. rewrite (Values_defined e Hd). fold opts.
    repeat split.
    + unfold len. simpl. apply length_map.
    + intros i x Hi. simpl. rewrite nth_error_map, Hi. reflexivity.
    + intros i Hi. simpl. rewrite nth_error_map, Hi. reflexivity.
  - intros Hn. unfold elastic.Values. now rewrite (not_defined e Hn).
Qed.

End Elastic_values.

Section Elastic_XML.
Context {Err T : Type} `{Zero T}.
Variables Decoder StartElement : Type.
Variable DecodeElement :
  Decoder -> StartElement -> Options T -> Decoder * Options T * error Err.


End Elastic_XML.

(** ** Option: Equal *)

Section Option_Equal.
Context {T : Type} `{Zero T} `{opt.Comparison T}.


End Option_Equal.

(** ** MarshalJSON and the round trip of FromValues *)

Lemma length_append_closing (a : string) :
  1 <= String.length (a ++ "]")%string.
Proof.
  induction a as [|c a IH]; simpl; lia.
Qed.

(** An array text is not the null literal, starts with the opener and has
    at least two bytes. *)
Lemma array_text_shape (ws : list string) :
  String.eqb (array_text ws) "null" = false
  /\ opens_array (array_text ws) = true
  /\ (2 <=? String.length (array_text ws)) = true.
Proof.
  unfold array_text. simpl. repeat split.
  pose proof (length_append_closing (String.concat "," ws)) as Hl.
  destruct (String.length (String.concat "," ws ++ "]")); [lia | reflexivity].
Qed.

Section Marshal.
Context {Err T : Type} `{Zero T} `{JSON Err T} `{Scanner Err}.

Lemma marshal_elements_tokens (os : list (opt.Option T)) (ws : list string) :
  Forall2 element_token os ws -> marshal_elements os = Ok ws.
Proof.
  induction 1 as [|o w os ws Ho _ IH]; simpl; [reflexivity|].
  unfold opt.MarshalJSON.
  destruct Ho as [[Hn ->] | [Hs Hw]].
  - unfold opt.IsNone, opt.IsSome in Hn. rewrite Hn, IH. reflexivity.
  - unfold opt.IsSome in Hs. unfold opt.Value in Hw.
    rewrite Hs. simpl. rewrite Hw, IH. reflexivity.
Qed.

Lemma encodable_tokens (ts : list T) (ws : list string) :
  Forall2 JSONEncodable ts ws -> Forall2 element_token (map opt.Some ts) ws.
Proof.
  induction 1 as [|a w ts ws [Hm _] _ IH]; simpl; constructor; try assumption.
  right. split; [reflexivity | exact Hm].
Qed.

Lemma unmarshal_elements_encodable (ts : list T) (ws : list string) :
  Forall2 JSONEncodable ts ws ->
  Forall (fun w => w <> "null"%string) ws ->
  unmarshal_elements ws = (map opt.Some ts, nil_error).
Proof.
  induction 1 as [|a w ts ws [_ Hu] _ IH]; intros Hnn; simpl; [reflexivity|].
  inversion Hnn as [|? ? Hw Hws]; subst.
  unfold opt.UnmarshalJSON.
  destruct (String.eqb_spec w "null") as [|_]; [contradiction|].
  change (opt.v (zero : opt.Option T)) with (zero : T).
  rewrite Hu, (IH Hws). reflexivity.
Qed.

(** C6, as the code has it. MarshalJSON gives the null literal for a none
    Option and T's own encoding of the value of a some; for an undefined
    or null Und the null literal and for a defined one the encoding of its
    value; for an undefined or null Elastic the null literal and for a
    defined one the encoding of its backing slice: the array of the
    elements' tokens when the slice is not nil, the null literal when it
    is nil. *)
Theorem MarshalJSON_null_or_value :
  (forall o : opt.Option T,
      (opt.IsNone o = true -> opt.MarshalJSON o = Ok "null"%string)
      /\ (opt.IsSome o = true ->
          opt.MarshalJSON o = json_Marshal (opt.Value o)))
  /\ (forall u : und.Und T,
      (und.IsUndefined u = true \/ und.IsNull u = true ->
       und.MarshalJSON u = Ok "null"%string)
      /\ (und.IsDefined u = true ->
          und.MarshalJSON u = json_Marshal (und.Get u)))
  /\ (forall e : elastic.Elastic T,
      (elastic.IsUndefined e = true \/ elastic.IsNull e = true ->
       elastic.MarshalJSON e = Ok "null"%string)
      /\ (elastic.IsDefined e = true ->
          forall os ws,
            und.Get (elastic.inner e) = Slice os ->
            Forall2 element_token os ws ->
            elastic.MarshalJSON e = Ok (array_text ws))
      /\ (elastic.IsDefined e = true ->
          und.Get (elastic.inner e) = nil_slice ->
          elastic.MarshalJSON e = Ok "null"%string)).
Proof.
  split; [|split].
  - intros [s x]. unfold opt.MarshalJSON, opt.IsNone, opt.IsSome, opt.Value.
    simpl. split; intros Hs.
    + now rewrite Hs.
    + now rewrite Hs.
  - intros [[s [s' x]]].
    unfold und.MarshalJSON, und.Get, und.IsUndefined, und.IsNull,
      und.IsDefined, opt.IsNone, opt.IsSome, opt.Value. simpl.
    split.
    + destruct s, s'; simpl; intros [Hc|Hc]; congruence.
    + destruct s, s'; simpl; intros Hc; congruence.
  - intros [[s [s' x]]].
    unfold elastic.MarshalJSON, json_Marshal_Und, und.MarshalJSON,
      elastic.IsUndefined, elastic.IsNull, elastic.IsDefined, elastic.inner,
      und.Get, und.IsUndefined, und.IsNull, und.IsDefined, opt.IsNone,
      opt.IsSome, opt.Value. simpl.
    split; [|split].
    + destruct s, s'; simpl; intros [Hc|Hc]; congruence.
    + destruct s, s'; simpl; intros Hc; try discriminate.
      intros os ws -> Htok. simpl.
      now rewrite (marshal_elements_tokens Htok).
    + destruct s, s'; simpl; intros Hc; try discriminate.
      intros ->. reflexivity.
Qed.

(** C4, as the code has it. For values that T's own codec encodes and
    decodes back, with encodings other than the null literal and an array
    text that the library's scanner cuts into these encodings, the Elastic
    built by FromValues encodes as the array of the encodings, one per
    value (also for a single value), and decoding that text gives the
    Elastic built by FromValues again, whatever the receiver held. *)
Theorem FromValues_round_trip : forall (ts : slice T) (ws : list string),
  Forall2 JSONEncodable (elems ts) ws ->
  Forall (fun w => w <> "null"%string) ws ->
  arrayElements (array_text ws) = Ok (Datatypes.Some ws) ->
  elastic.MarshalJSON (elastic.FromValues ts) = Ok (array_text ws)
  /\ List.length ws = len ts
  /\ forall e0 : elastic.Elastic T,
       elastic.UnmarshalJSON (array_text ws) e0
       = (elastic.FromValues ts, nil_error).
Proof.
  intros ts ws Henc Hnn Hscan. rewrite FromValues_eq.
  split; [|split].
  - unfold elastic.MarshalJSON, json_Marshal_Und, und.MarshalJSON. simpl.
    now rewrite (marshal_elements_tokens (encodable_tokens Henc)).
  - symmetry. apply (Forall2_length Henc).
  - intros e0. unfold elastic.UnmarshalJSON.
    destruct (array_text_shape ws) as (-> & -> & ->). simpl.
    unfold unmarshal_slice. rewrite Hscan.
    now rewrite (unmarshal_elements_encodable Henc Hnn).
Qed.

End Marshal.

(** * The theorems on the concrete instances *)

Local Open Scope string_scope.

(** C1 on four inputs: the null literal, an array, a scalar, and an array
    that neither attempt decodes. *)
Lemma Elastic_UnmarshalJSON_order_witness :
  elastic.UnmarshalJSON "null" (elastic.FromValue (Datatypes.Some true))
  = (elastic.Null, nil_error (Err:=string))
  /\ elastic.UnmarshalJSON "[true,null]" elastic.Undefined
     = (elastic.FromOptions (Slice [opt.Some (Datatypes.Some true); opt.None]),
        nil_error (Err:=string))
  /\ elastic.UnmarshalJSON "false" elastic.Undefined
     = (elastic.FromOptions (Slice [opt.Some (Datatypes.Some false)]),
        nil_error (Err:=string))
  /\ elastic.UnmarshalJSON "[x]" (elastic.Null (T:=option bool))
     = (elastic.Null, an_error "cannot unmarshal into Go value of type bool").
Proof.
  split; [|split; [|split]].
  - destruct (Elastic_UnmarshalJSON_order (Err:=string) (T:=option bool)
                "null" (elastic.FromValue (Datatypes.Some true)))
      as (Hnull & _).
    destruct (Hnull eq_refl) as (e' & Heq & -> & _). exact Heq.
  - destruct (Elastic_UnmarshalJSON_order (Err:=string) (T:=option bool)
                "[true,null]" elastic.Undefined) as (_ & Harray & _).
    assert (Hne : "[true,null]" <> "null") by discriminate.
    destruct (Harray Hne eq_refl
                (Slice [opt.Some (Datatypes.Some true); opt.None]) eq_refl)
      as (e' & Heq & -> & _).
    exact Heq.
  - destruct (Elastic_UnmarshalJSON_order (Err:=string) (T:=option bool)
                "false" elastic.Undefined) as (_ & _ & Hscalar & _).
    assert (Hne : "false" <> "null") by discriminate.
    destruct (Hscalar Hne (or_introl eq_refl)
                (opt.Some (Datatypes.Some false)) eq_refl)
      as (e' & Heq & -> & _).
    exact Heq.
  - destruct (Elastic_UnmarshalJSON_order (Err:=string) (T:=option bool)
                "[x]" elastic.Null) as (_ & _ & _ & Hfail).
    apply (Hfail) with (o := zero); [discriminate | right | reflexivity].
    exists (Slice [zero]), "cannot unmarshal into Go value of type bool".
    reflexivity.
Defined.

(** C1 as stated fails on an array after white space, which a scanner
    that skips white space reads as an array: the leading token of
    " [true]" opens an array and the whole input decodes as a sequence of
    one element, but the first byte is not the opener, so only the scalar
    attempt is made; it fails, and the call returns its error and leaves
    the receiver undefined as it was. *)
Lemma Elastic_UnmarshalJSON_array_after_white_space :
  opens_array (sample.skip_space " [true]") = true
  /\ @json_Unmarshal string (Options (option bool))
       (@JSON_Options string (option bool) _ _ sample.Scanner_trimming)
       " [true]" zero
     = (Slice [opt.Some (Datatypes.Some true)], nil_error)
  /\ array_guard " [true]" = false
  /\ @elastic.UnmarshalJSON string (option bool) _ _ sample.Scanner_trimming
       " [true]" elastic.Undefined
     = (elastic.Undefined,
        an_error "cannot unmarshal into Go value of type bool")
  /\ elastic.IsDefined
       (fst (@elastic.UnmarshalJSON string (option bool) _ _
               sample.Scanner_trimming " [true]" elastic.Undefined))
     = false.
Proof.
  repeat split.
Qed.

(** C3 on the null literal, a value and a text T does not decode. *)
Lemma Und_UnmarshalJSON_outcomes_witness :
  und.UnmarshalJSON "null" (und.Defined (Datatypes.Some true))
  = (und.Null, nil_error (Err:=string))
  /\ und.UnmarshalJSON "true" und.Undefined
     = (und.Defined (Datatypes.Some true), nil_error (Err:=string))
  /\ und.Get (fst (und.UnmarshalJSON (Err:=string) "true" und.Undefined))
     = Datatypes.Some true
  /\ und.UnmarshalJSON "x" (und.Undefined (T:=option bool))
     = (und.Undefined, an_error "cannot unmarshal into Go value of type bool")
  /\ und.IsUndefined (und.Defined (Datatypes.Some true)) = false.
Proof.
  assert (Hne : "true" <> "null") by discriminate.
  split; [|split; [|split; [|split]]].
  - destruct (Und_UnmarshalJSON_outcomes (Err:=string) (T:=option bool)
                "null" (und.Defined (Datatypes.Some true))) as (Hnull & _).
    destruct (Hnull eq_refl) as (u' & Heq & -> & _). exact Heq.
  - destruct (Und_UnmarshalJSON_outcomes (Err:=string) (T:=option bool)
                "true" und.Undefined) as (_ & Hok & _).
    destruct (Hok Hne (Datatypes.Some true) eq_refl) as (u' & Heq & -> & _).
    exact Heq.
  - destruct (Und_UnmarshalJSON_outcomes (Err:=string) (T:=option bool)
                "true" und.Undefined) as (_ & Hok & _).
    destruct (Hok Hne (Datatypes.Some true) eq_refl)
      as (u' & Heq & _ & _ & _ & _ & Hget).
    rewrite Heq. exact Hget.
  - apply (Und_UnmarshalJSON_outcomes (Err:=string) (T:=option bool) "x")
      with (t := zero); [discriminate | reflexivity].
  - apply (Und_UnmarshalJSON_outcomes (Err:=string) (T:=option bool) "true"
             und.Undefined).
    reflexivity.
Defined.

(** C9 on a text that T does not decode. *)
Lemma UnmarshalJSON_failure_keeps_receiver_witness :
  fst (und.UnmarshalJSON (Err:=string) "x" (und.Defined (Datatypes.Some true)))
  = und.Defined (Datatypes.Some true)
  /\ fst (elastic.UnmarshalJSON (Err:=string) "[x]"
            (elastic.FromValue (Datatypes.Some false)))
     = elastic.FromValue (Datatypes.Some false).
Proof.
  split.
  - apply (proj1 (UnmarshalJSON_failure_keeps_receiver
                    (Err:=string) (T:=option bool)) "x" _ _
             "cannot unmarshal into Go value of type bool").
    reflexivity.
  - apply (proj2 (UnmarshalJSON_failure_keeps_receiver
                    (Err:=string) (T:=option bool)) "[x]" _ _
             "cannot unmarshal into Go value of type bool").
    reflexivity.
Defined.

(** Values on a defined Elastic with a some and a none, and on null. *)
Lemma Elastic_Values_spec_witness :
  (len (elastic.Values
          (elastic.FromOptions (Slice [opt.Some (Datatypes.Some true); opt.None])))
   = 2
   /\ nth_error
        (elems (elastic.Values
           (elastic.FromOptions
              (Slice [opt.Some (Datatypes.Some true); opt.None])))) 0
      = Datatypes.Some (Datatypes.Some true)
   /\ nth_error
        (elems (elastic.Values
           (elastic.FromOptions
              (Slice [opt.Some (Datatypes.Some true); opt.None])))) 1
      = Datatypes.Some (zero : option bool))
  /\ elastic.Values (elastic.Null (T:=option bool)) = nil_slice.
Proof.
  split.
  - destruct (Elastic_Values_spec
                (elastic.FromOptions
                   (Slice [opt.Some (Datatypes.Some true); opt.None])))
      as [Hd _].
    destruct (Hd eq_refl) as (_ & Hlen & Hsome & Hnone).
    split; [exact Hlen | split].
    + apply Hsome. reflexivity.
    + apply Hnone. reflexivity.
  - apply (Elastic_Values_spec (T:=option bool)). left. reflexivity.
Defined.

(** C10. Values on a none that does not hold the zero value. A failing
    Option.UnmarshalJSON leaves such a none: decoding the number 1 into a
    none Option[*bool] returns the type error after the field has been
    made to point at a new bool. The option still is none, and Values of
    the Elastic that holds it gives that pointer, not the zero value nil,
    against the comments of Value and Values. *)
Lemma Elastic_Values_stale_none :
  @opt.UnmarshalJSON string (option bool) _ sample.JSON_bool_pointer_allocating
    "1" opt.None
  = ({| opt.some := false; opt.v := Datatypes.Some false |},
     an_error "json: cannot unmarshal number into Go value of type bool")
  /\ opt.IsNone {| opt.some := false; opt.v := Datatypes.Some false |} = true
  /\ elastic.IsDefined
       (elastic.FromOptions
          (Slice [{| opt.some := false; opt.v := Datatypes.Some false |}]))
     = true
  /\ elastic.Values
       (elastic.FromOptions
          (Slice [{| opt.some := false; opt.v := Datatypes.Some false |}]))
     = Slice [Datatypes.Some false]
  /\ elastic.Values
       (elastic.FromOptions
          (Slice [{| opt.some := false; opt.v := Datatypes.Some false |}]))
     <> Slice [zero].
Proof.
  repeat split. discriminate.
Qed.



(** C6 on a defined Elastic with a some and a none. *)
Lemma MarshalJSON_null_or_value_witness :
  opt.MarshalJSON (opt.None (T:=option bool)) = Ok (Err:=string) "null"
  /\ und.MarshalJSON (und.Null (T:=option bool)) = Ok (Err:=string) "null"
  /\ elastic.MarshalJSON (elastic.Undefined (T:=option bool))
     = Ok (Err:=string) "null"
  /\ elastic.MarshalJSON
       (elastic.FromOptions (Slice [opt.Some (Datatypes.Some true); opt.None]))
     = Ok (Err:=string) "[true,null]"
  /\ elastic.MarshalJSON
       (elastic.FromOptions (nil_slice : Options (option bool)))
     = Ok (Err:=string) "null".
Proof.
  destruct (MarshalJSON_null_or_value (Err:=string) (T:=option bool))
    as (HO & HU & HE).
  split; [|split; [|split; [|split]]].
  - apply (proj1 (HO _)). reflexivity.
  - apply (proj1 (HU _)). right. reflexivity.
  - apply (proj1 (HE _)). left. reflexivity.
  - apply (proj1 (proj2 (HE (elastic.FromOptions
                               (Slice [opt.Some (Datatypes.Some true);
                                       opt.None]))))
             eq_refl
             [opt.Some (Datatypes.Some true); opt.None] ["true"; "null"]
             eq_refl).
    constructor; [right; split; reflexivity|].
    constructor; [left; split; reflexivity|].
    constructor.
  - apply (proj2 (proj2 (HE _))); reflexivity.
Defined.

(** C6 as stated fails on a defined Elastic whose backing slice is nil
    (FromOptions(nil)): its encoding is the null literal, not an array. *)
Lemma Elastic_MarshalJSON_nil_backing_not_array :
  elastic.IsDefined (elastic.FromOptions (nil_slice : Options (option bool)))
  = true
  /\ elastic.MarshalJSON
       (elastic.FromOptions (nil_slice : Options (option bool)))
     = Ok (Err:=string) "null"
  /\ forall ws,
       elastic.MarshalJSON
         (elastic.FromOptions (nil_slice : Options (option bool)))
       <> Ok (Err:=string) (array_text ws).
Proof.
  split; [reflexivity | split; [reflexivity|]].
  intros ws. vm_compute. discriminate.
Qed.

(** C4 on three values of *bool. *)
Lemma FromValues_round_trip_witness :
  elastic.MarshalJSON
    (elastic.FromValues
       (Slice [Datatypes.Some true; Datatypes.Some false; Datatypes.Some true]))
  = Ok (Err:=string) "[true,false,true]"
  /\ elastic.UnmarshalJSON "[true,false,true]" elastic.Undefined
     = (elastic.FromValues
          (Slice [Datatypes.Some true; Datatypes.Some false;
                  Datatypes.Some true]),
        nil_error (Err:=string)).
Proof.
  assert (Henc : Forall2 (JSONEncodable (Err:=string))
                   [Datatypes.Some true; Datatypes.Some false;
                    Datatypes.Some true]
                   ["true"; "false"; "true"]).
  { repeat constructor. }
  assert (Hnn : Forall (fun w => w <> "null") ["true"; "false"; "true"]).
  { repeat constructor; discriminate. }
  assert (Hscan : arrayElements (Err:=string)
                    (array_text ["true"; "false"; "true"])
                  = Ok (Datatypes.Some ["true"; "false"; "true"])).
  { reflexivity. }
  destruct (FromValues_round_trip
              (Slice [Datatypes.Some true; Datatypes.Some false;
                      Datatypes.Some true])
              Henc Hnn Hscan) as (Hm & _ & Hu).
  split; [exact Hm | exact (Hu elastic.Undefined)].
Defined.

(** C4 as stated fails for values whose encoding is the null literal:
    three nil pointers are encoded and decoded back by *bool's own codec,
    the Elastic of the three encodes as an array of three tokens, and that
    array decodes to three nones, which Equal tells from the three somes
    it was built from. *)
Lemma FromValues_round_trip_fails_on_null_encodings :
  Forall2 (JSONEncodable (Err:=string))
    [@Datatypes.None bool; Datatypes.None; Datatypes.None]
    ["null"; "null"; "null"]
  /\ arrayElements (Err:=string) (array_text ["null"; "null"; "null"])
     = Ok (Datatypes.Some ["null"; "null"; "null"])
  /\ elastic.MarshalJSON
       (elastic.FromValues
          (Slice [@Datatypes.None bool; Datatypes.None; Datatypes.None]))
     = Ok (Err:=string) "[null,null,null]"
  /\ elastic.UnmarshalJSON "[null,null,null]" elastic.Undefined
     = (elastic.FromOptions
          (Slice [opt.None (T:=option bool); opt.None; opt.None]),
        nil_error (Err:=string))
  /\ fst (elastic.UnmarshalJSON (Err:=string) "[null,null,null]"
            elastic.Undefined)
     <> elastic.FromValues
          (Slice [@Datatypes.None bool; Datatypes.None; Datatypes.None])
  /\ forall C : opt.Comparison (option bool),
       @opt.Equal _ C (opt.Some (@Datatypes.None bool)) opt.None
       = Returns false.
Proof.
  split; [repeat constructor|].
  split; [reflexivity|].
  split; [reflexivity|].
  split; [reflexivity|].
  split; [vm_compute; discriminate|].
  intros C. reflexivity.
Qed.

(** * Further properties of the packages *)

(** ** Option: the combinators *)

Section Option_combinators.
Context {T U V : Type} `{Zero T} `{Zero U} `{Zero V}.

(** X1. And, Or and Xor are conjunction, disjunction and exclusive or on being
    some; a some result of And is its second operand, a some result of Xor
    is what Or returns; OrElse and AndThen with constant functions are Or
    and And. *)
Theorem Option_And_Or_Xor : forall o u : opt.Option T,
  opt.IsSome (opt.And o u) = opt.IsSome o && opt.IsSome u
  /\ opt.IsSome (opt.Or o u) = opt.IsSome o || opt.IsSome u
  /\ opt.IsSome (opt.Xor o u) = xorb (opt.IsSome o) (opt.IsSome u)
  /\ (opt.IsSome (opt.And o u) = true -> opt.And o u = u)
  /\ (opt.IsSome (opt.Xor o u) = true -> opt.Xor o u = opt.Or o u)
  /\ (opt.IsSome (opt.Xor o u) = false -> opt.Xor o u = opt.None)
  /\ opt.OrElse o (fun _ => u) = opt.Or o u
  /\ opt.AndThen o (fun _ => u) = opt.And o u.
Proof.
  intros [s x] [s' x']. unfold_opt. simpl.
  destruct s, s'; simpl; repeat split; congruence.
Qed.

(** X2. Filter keeps the receiver exactly when IsSomeAnd holds of the same
    predicate, and gives None[T]() otherwise; filtering twice is filtering
    once. *)
Theorem Option_Filter_IsSomeAnd : forall (o : opt.Option T) (pred : T -> bool),
  opt.IsSome (opt.Filter o pred) = opt.IsSomeAnd o pred
  /\ (opt.IsSomeAnd o pred = true -> opt.Filter o pred = o)
  /\ (opt.IsSomeAnd o pred = false -> opt.Filter o pred = opt.None)
  /\ opt.Filter (opt.Filter o pred) pred = opt.Filter o pred.
Proof.
  intros [s x] pred. unfold_opt. simpl.
  destruct s; simpl; [destruct (pred x) eqn:Hp; simpl; rewrite ?Hp|];
    repeat split; congruence.
Qed.

(** X3. MapOption keeps being some, maps a none to None[U](), and composes;
    MapOrOption and MapOrElseOption read the mapped value or the
    default. *)
Theorem Option_MapOption_compose :
  forall (o : opt.Option T) (f : T -> U) (g : U -> V) (d : U),
  opt.MapOption (opt.MapOption o f) g = opt.MapOption o (fun x => g (f x))
  /\ opt.IsSome (opt.MapOption o f) = opt.IsSome o
  /\ (opt.IsNone o = true -> opt.MapOption o f = opt.None)
  /\ opt.MapOrOption o d f
     = (if opt.IsSome o then opt.Value (opt.MapOption o f) else d)
  /\ opt.MapOrElseOption o (fun _ => d) f = opt.MapOrOption o d f.
Proof.
  intros [s x] f g d. unfold_opt. simpl.
  destruct s; simpl; repeat split; congruence.
Qed.

End Option_combinators.

Section Option_AndThen.
Context {T : Type} `{Zero T}.

(** X4. AndThen is the bind of Option: Some is a left unit, a right unit on
    canonical options, AndThen is associative, and on functions with
    canonical results it is MapOption followed by FlattenOption. *)
Theorem Option_AndThen_laws :
  forall (o : opt.Option T) (f g : T -> opt.Option T),
  (forall x, opt.AndThen (opt.Some x) f = f x)
  /\ (canonical o -> opt.AndThen o opt.Some = o)
  /\ opt.AndThen (opt.AndThen o f) g
     = opt.AndThen o (fun x => opt.AndThen (f x) g)
  /\ ((forall x, canonical (f x)) ->
      opt.FlattenOption (opt.MapOption o f) = opt.AndThen o f).
Proof.
  intros [s x] f g. unfold canonical. split; [reflexivity|].
  split; [|split].
  - unfold_opt. simpl. destruct s; simpl; [reflexivity|].
    intros Hc. symmetry. now apply Hc.
  - unfold_opt. simpl. destruct s; reflexivity.
  - intros Hc. specialize (Hc x).
    destruct s; [|reflexivity].
    unfold opt.FlattenOption, opt.MapOption, opt.AndThen. cbn.
    destruct (f x) as [s' y] eqn:Hfx. cbn in *.
    destruct s'; [reflexivity|].
    symmetry. now apply Hc.
Qed.

(** X5. The constructors give canonical options and the combinators keep
    options canonical; MapOption and Filter give a canonical result from
    any receiver that is some or canonical. *)
Theorem Option_canonical_preserved :
  (forall x : T, canonical (opt.Some x))
  /\ canonical (opt.None (T:=T))
  /\ canonical (zero : opt.Option T)
  /\ (forall o u : opt.Option T, canonical o -> canonical u ->
        canonical (opt.And o u) /\ canonical (opt.Or o u)
        /\ canonical (opt.Xor o u))
  /\ (forall (o : opt.Option T) pred, canonical (opt.Filter o pred))
  /\ (forall (o : opt.Option T) f, canonical (opt.Map o f))
  /\ (forall (o : opt.Option T) f,
        (forall x, canonical (f x)) -> canonical (opt.AndThen o f))
  /\ (forall o : opt.Option (opt.Option T), canonical (opt.FlattenOption o)).
Proof.
  unfold canonical, opt.Map.
  split; [discriminate|].
  split; [reflexivity|].
  split; [reflexivity|].
  split; [|split; [|split; [|split]]].
  - intros [s x] [s' x'] Ho Hu. unfold_opt. simpl in *.
    destruct s, s'; simpl; repeat split; intros; auto; discriminate.
  - intros [s x] pred. unfold_opt. simpl.
    destruct s; simpl; [destruct (pred x)|]; simpl; intros;
      try reflexivity; discriminate.
  - intros [s x] f. unfold_opt. simpl. destruct s; simpl; intros;
      try reflexivity; discriminate.
  - intros [s x] f Hf. unfold opt.AndThen, opt.IsSome. simpl.
    destruct s; simpl; [apply Hf | reflexivity].
  - intros [s [s' x]]. unfold_opt. simpl.
    destruct s, s'; simpl; intros; try reflexivity; discriminate.
Qed.

End Option_AndThen.

(** ** Option and Und: the JSON codec *)

Section Option_JSON.
Context {Err T : Type} `{Zero T} `{JSON Err T}.


(** X6. Option.UnmarshalJSON: the null literal resets any receiver to
    None[T](); a successful call leaves a canonical option, which is some
    unless the input was the null literal; a failing call keeps the
    receiver some or none as it was and leaves in its field what T's
    decoder left there. *)
Theorem Option_UnmarshalJSON_outcomes :
  forall (data : string) (o : opt.Option T),
  (data = "null"%string -> opt.UnmarshalJSON data o = (opt.None, nil_error))
  /\ (forall o', opt.UnmarshalJSON data o = (o', nil_error) ->
        canonical o'
        /\ (data <> "null"%string ->
            opt.IsSome o' = true
            /\ json_Unmarshal data (opt.Value o) = (opt.Value o', nil_error)))
  /\ (forall o' e, opt.UnmarshalJSON data o = (o', an_error e) ->
        data <> "null"%string
        /\ opt.IsSome o' = opt.IsSome o
        /\ json_Unmarshal data (opt.Value o) = (opt.Value o', an_error e)).
Proof.
  intros data [s x]. unfold opt.UnmarshalJSON, canonical. simpl.
  destruct (String.eqb_spec data "null") as [Heq|Hne].
  - split; [reflexivity|]. split.
    + intros o' Ho'. inversion Ho'. split; [reflexivity | contradiction].
    + discriminate.
  - split; [contradiction|].
    unfold opt.Value. simpl.
    destruct (json_Unmarshal data x) as [x' [|e]]; split.
    + intros o' Ho'. inversion Ho'; subst. simpl.
      split; [discriminate | intros _; split; reflexivity].
    + discriminate.
    + discriminate.
    + intros o' e' Ho'. inversion Ho'; subst. simpl.
      repeat split; assumption.
Qed.

(** X7. Round trip of Option: None encodes as the null literal and Some(a), for
    a value that T's codec round-trips with an encoding other than the
    null literal, as that encoding; decoding the text into an option whose
    field is the zero value gives the option back. *)
Theorem Option_JSON_round_trip : forall (a : T) (w : string),
  JSONEncodable a w -> w <> "null"%string ->
  opt.MarshalJSON (opt.Some a) = Ok w
  /\ (forall o0, opt.Value o0 = zero ->
        opt.UnmarshalJSON w o0 = (opt.Some a, nil_error))
  /\ opt.MarshalJSON (opt.None (T:=T)) = Ok (Err:=Err) "null"%string
  /\ (forall o0 : opt.Option T,
        opt.UnmarshalJSON "null" o0 = (opt.None, nil_error (Err:=Err))).
Proof.
  intros a w [Hm Hu] Hw. split; [exact Hm|]. split; [|split].
  - intros [s x] Hx. unfold opt.Value in Hx. simpl in Hx. subst x.
    unfold opt.UnmarshalJSON. simpl.
    destruct (String.eqb_spec w "null") as [|_]; [contradiction|].
    now rewrite Hu.
  - reflexivity.
  - reflexivity.
Qed.

(** X8. Round trip of Und: Defined(a) encodes as a's encoding and decodes
    back into any receiver, for a value that T's codec round-trips with an
    encoding other than the null literal. *)
Theorem Und_JSON_round_trip : forall (a : T) (w : string),
  JSONEncodable a w -> w <> "null"%string ->
  und.MarshalJSON (und.Defined a) = Ok w
  /\ forall u0, und.UnmarshalJSON w u0 = (und.Defined a, nil_error).
Proof.
  intros a w [Hm Hu] Hw. split; [exact Hm|].
  intros u0. unfold und.UnmarshalJSON.
  destruct (String.eqb_spec w "null") as [|_]; [contradiction|].
  now rewrite Hu.
Qed.

(** X9. Null and Undefined both encode as the null literal, which decodes to
    Null: an undefined Und does not come back undefined. *)
Theorem Und_null_literal_round_trip : forall u0 : und.Und T,
  und.MarshalJSON (und.Null (T:=T)) = Ok (Err:=Err) "null"%string
  /\ und.MarshalJSON (und.Undefined (T:=T)) = Ok (Err:=Err) "null"%string
  /\ und.UnmarshalJSON "null" u0 = (und.Null, nil_error (Err:=Err))
  /\ und.Null (T:=T) <> und.Undefined.
Proof.
  intros u0. repeat split. discriminate.
Qed.

End Option_JSON.

(** ** Und: pointers and equality *)

Section Und_pointers.
Context {T : Type} `{Zero T}.

(** X10. Pointers being read by what they point at: Pointer of
    FromPointer(p) is nil exactly when p is nil and otherwise points at a
    value equal to the one p points at (FromPointer stores the value and
    Pointer returns the address of a copy, so it is not p itself); for a
    defined Und, Pointer points at a value equal to Get and FromPointer of
    it is Defined(Get); a null or undefined Und has the nil pointer and the
    zero value, so a null Und comes back undefined. *)
Theorem Und_Pointer_FromPointer :
  (forall p : option T,
      (und.Pointer (und.FromPointer p) = Datatypes.None
       <-> p = Datatypes.None)
      /\ (forall x, p = Datatypes.Some x ->
                    und.Pointer (und.FromPointer p) = Datatypes.Some x
                    /\ und_is_defined_with (und.FromPointer p) x)
      /\ (p = Datatypes.None -> und.IsUndefined (und.FromPointer p) = true))
  /\ (forall u : und.Und T, und.IsDefined u = true ->
        und.Pointer u = Datatypes.Some (und.Get u)
        /\ und.FromPointer (und.Pointer u) = und.Defined (und.Get u))
  /\ (forall u : und.Und T, und.IsDefined u = false ->
        und.Pointer u = Datatypes.None
        /\ und.Get u = zero
        /\ und.FromPointer (und.Pointer u) = und.Undefined).
Proof.
  split; [|split].
  - intros [x|]; (split; [|split]).
    + split; discriminate.
    + intros y Hy. inversion Hy; subst. repeat split.
    + discriminate.
    + split; reflexivity.
    + discriminate.
    + reflexivity.
  - intros [[s [s' x]]]. unfold_und. simpl.
    destruct s, s'; simpl; intros; try discriminate. split; reflexivity.
  - intros [[s [s' x]]]. unfold_und. simpl.
    destruct s, s'; simpl; intros; try discriminate; repeat split.
Qed.

(** X11. DoublePointer tells the three states apart: nil exactly for
    undefined, a pointer to nil exactly for null, a pointer to a pointer
    to the value exactly for defined; the pointer it points at is what
    Pointer returns. *)
Theorem Und_DoublePointer_states : forall u : und.Und T,
  (und.DoublePointer u = Datatypes.None <-> und.IsUndefined u = true)
  /\ (und.DoublePointer u = Datatypes.Some Datatypes.None
      <-> und.IsNull u = true)
  /\ (forall t, und.DoublePointer u = Datatypes.Some (Datatypes.Some t)
                <-> und.IsDefined u = true /\ und.Get u = t)
  /\ und.Pointer u
     = match und.DoublePointer u with
       | Datatypes.Some p => p
       | Datatypes.None => Datatypes.None
       end.
Proof.
  intros [[s [s' x]]]. unfold_und. simpl.
  destruct s, s'; simpl; repeat split; try congruence;
    try (intros [? ?]; congruence).
Qed.

End Und_pointers.

Section Und_Equal.
Context {T : Type} `{Zero T} `{opt.Comparison T}.

(** X12. Und.Equal: two defined values are compared as [equal] compares the
    values of T, so an Equal method of T decides; in every other case the
    result is whether both are undefined or both are null, without a
    panic. *)
Theorem Und_Equal_states : forall u other : und.Und T,
  (und.IsDefined u = true -> und.IsDefined other = true ->
   und.Equal u other = opt.equal (und.Get u) (und.Get other))
  /\ (und.IsDefined u = false \/ und.IsDefined other = false ->
      und.Equal u other
      = Returns (Bool.eqb (und.IsUndefined u) (und.IsUndefined other)
                 && Bool.eqb (und.IsNull u) (und.IsNull other))).
Proof.
  intros [[s [s' x]]] [[r [r' y]]].
  unfold_und. unfold opt.Equal, opt.equal. simpl.
  split.
  - destruct s, s'; simpl; try discriminate.
    destruct r, r'; simpl; try discriminate. reflexivity.
  - destruct s, s', r, r'; simpl; intros [Hc|Hc]; try discriminate;
      reflexivity.
Qed.

End Und_Equal.

(** ** Equal on the types of the test suite *)

(** X13. On int, which has no Equal method, Option.Equal never panics and
    holds exactly of two nones and of two somes of the same integer. *)
Theorem Option_Equal_int : forall o other : opt.Option Z,
  exists b, opt.Equal o other = Returns b
  /\ (b = true <->
      (opt.IsNone o = true /\ opt.IsNone other = true)
      \/ (opt.IsSome o = true /\ opt.IsSome other = true
          /\ opt.Value o = opt.Value other)).
Proof.
  intros [s x] [s' y].
  unfold opt.Equal, opt.equal, opt.interface_eq, opt.IsNone, opt.IsSome,
    opt.Value. simpl.
  destruct s, s'; simpl; eexists; (split; [reflexivity|]).
  - rewrite Z.eqb_eq. split.
    + intros ->. right. repeat split.
    + intros [[Hc _] | (_ & _ & Hv)]; [discriminate | exact Hv].
  - split; [discriminate|]. intros [[Hc _] | (_ & Hc & _)]; discriminate.
  - split; [discriminate|]. intros [[_ Hc] | (Hc & _)]; discriminate.
  - split; [intros _; left; split; reflexivity | reflexivity].
Qed.

Lemma NonComparableButEquality_Equal_spec
  (e other : sample.NonComparableButEquality) :
  sample.NonComparableButEquality_Equal e other = true
  <-> elems e = elems other.
Proof.
  unfold sample.NonComparableButEquality_Equal, len.
  destruct (Nat.eqb_spec (List.length (elems e)) (List.length (elems other)))
    as [Hlen|Hlen]; simpl.
  - rewrite forallb_forall. split.
    + intros Hall. apply (nth_ext _ _ EmptyString EmptyString Hlen).
      intros n Hn. apply String.eqb_eq. apply Hall.
      apply in_seq. lia.
    + intros Heq idx _. rewrite Heq. apply String.eqb_refl.
  - split; [discriminate|]. intros Heq. now rewrite Heq in Hlen.
Qed.

(** X14. On NonComparableButEquality, a slice type with an Equal method,
    Option.Equal of two somes never panics and holds exactly when the two
    slices have the same elements, while the built-in comparison of the
    two values panics. *)
Theorem Option_Equal_NonComparableButEquality :
  forall o other : opt.Option sample.NonComparableButEquality,
  opt.IsSome o = true -> opt.IsSome other = true ->
  (exists b,
      @opt.Equal _ sample.Comparison_NonComparableButEquality o other
      = Returns b
      /\ (b = true <-> elems (opt.Value o) = elems (opt.Value other)))
  /\ @opt.interface_eq _ sample.Comparison_NonComparableButEquality
       (opt.Value o) (opt.Value other)
     = Panics.
Proof.
  intros [s x] [s' y]. unfold opt.IsSome, opt.Value. simpl.
  intros -> ->. split; [|reflexivity].
  exists (sample.NonComparableButEquality_Equal x y).
  split; [reflexivity|]. apply NonComparableButEquality_Equal_spec.
Qed.

(** The test suite's pair: equal elements behind different slices. *)
Lemma Option_Equal_NonComparableButEquality_witness :
  @opt.Equal _ sample.Comparison_NonComparableButEquality
    (opt.Some (Slice ["foo"])) (opt.Some (Slice ["foo"]))
  = Returns true
  /\ @opt.Equal _ sample.Comparison_NonComparableButEquality
       (opt.Some (Slice ["foo"])) (opt.Some (Slice ["bar"]))
     = Returns false.
Proof.
  split.
  - destruct (Option_Equal_NonComparableButEquality
                (opt.Some (Slice ["foo"])) (opt.Some (Slice ["foo"]))
                eq_refl eq_refl) as [(b & Hb & Hiff) _].
    rewrite Hb. f_equal. apply Hiff. reflexivity.
  - destruct (Option_Equal_NonComparableButEquality
                (opt.Some (Slice ["foo"])) (opt.Some (Slice ["bar"]))
                eq_refl eq_refl) as [(b & Hb & Hiff) _].
    rewrite Hb. f_equal. destruct b; [|reflexivity].
    assert (Hc : elems (Slice ["foo"]) = elems (Slice ["bar"]))
      by (now apply Hiff).
    discriminate Hc.
Defined.

(** ** Elastic: accessors and constructors *)

Section Elastic_accessors.
Context {T : Type} `{Zero T}.

Lemma Pointers_defined (e : elastic.Elastic T) :
  elastic.IsDefined e = true ->
  elastic.Pointers e
  = Slice (map opt.Pointer (elems (und.Get (elastic.inner e)))).
Proof.
  intros Hd. unfold elastic.Pointers. rewrite Hd. cbn [negb]. cbv zeta.
  unfold len. now rewrite range_assign_make.
Qed.

(** X15. Value and Pointer are the first elements of Values and Pointers, or
    the zero value and nil when there is none; Pointers is as long as
    Values and a non-nil pointer points at the value at the same index. *)
Theorem Elastic_Value_first_of_Values : forall e : elastic.Elastic T,
  elastic.Value e = nth 0 (elems (elastic.Values e)) zero
  /\ elastic.Pointer e = nth 0 (elems (elastic.Pointers e)) Datatypes.None
  /\ len (elastic.Pointers e) = len (elastic.Values e)
  /\ (forall i x,
        nth_error (elems (elastic.Pointers e)) i
        = Datatypes.Some (Datatypes.Some x) ->
        nth_error (elems (elastic.Values e)) i = Datatypes.Some x).
Proof.
  intros e. destruct (elastic.IsDefined e) eqn:Hd.
  - rewrite (Values_defined e Hd), (Pointers_defined e Hd).
    unfold elastic.Value, elastic.Pointer, len. rewrite Hd. simpl.
    split; [|split; [|split]].
    + destruct (elems (und.Get (elastic.inner e))); reflexivity.
    + destruct (elems (und.Get (elastic.inner e))) as [|[s x] l];
        [reflexivity|].
      unfold opt.Pointer, opt.IsNone, opt.IsSome, opt.Value. simpl.
      destruct s; reflexivity.
    + now rewrite !length_map.
    + intros i x. rewrite !nth_error_map.
      destruct (nth_error (elems (und.Get (elastic.inner e))) i)
        as [[s y]|]; simpl; [|discriminate].
      unfold opt.Pointer, opt.IsNone, opt.IsSome, opt.Value. simpl.
      destruct s; simpl; congruence.
  - unfold elastic.Value, elastic.Pointer, elastic.Values, elastic.Pointers.
    rewrite Hd. simpl. repeat split. intros [|i] x; discriminate.
Qed.

(** X16. FromValues is always defined, also for a nil or empty slice, and
    Values gives its elements back; Pointers points at each of them and
    Value is the first one. *)
Theorem Elastic_Values_FromValues : forall ts : slice T,
  elastic.IsDefined (elastic.FromValues ts) = true
  /\ elastic.Values (elastic.FromValues ts) = Slice (elems ts)
  /\ elastic.Pointers (elastic.FromValues ts)
     = Slice (map Datatypes.Some (elems ts))
  /\ elastic.Value (elastic.FromValues ts) = nth 0 (elems ts) zero.
Proof.
  intros ts. rewrite FromValues_eq.
  assert (Hd : elastic.IsDefined
                 (elastic.FromOptions (Slice (map opt.Some (elems ts))))
               = true) by reflexivity.
  split; [exact Hd|]. split; [|split].
  - rewrite (Values_defined _ Hd). simpl. f_equal.
    rewrite map_map. apply map_id.
  - rewrite (Pointers_defined _ Hd). simpl. f_equal.
    rewrite map_map. reflexivity.
  - unfold elastic.Value. rewrite Hd. simpl.
    destruct (elems ts); reflexivity.
Qed.

(** X17. Pointers being read by what they point at: elastic.FromPointer
    is undefined exactly for nil; for a pointer at x it is the defined
    Elastic of the one value x, and Pointer, which returns the address of
    a copy, points at a value equal to x; for nil, Pointer and Values are
    nil. FromValue holds the one value and is FromValues of the
    one-element slice. *)
Theorem Elastic_FromPointer_Pointer :
  (forall p : option T,
      (elastic.IsUndefined (elastic.FromPointer p) = true
       <-> p = Datatypes.None)
      /\ (forall x, p = Datatypes.Some x ->
                    elastic.FromPointer p = elastic.FromValue x
                    /\ elastic.Pointer (elastic.FromPointer p)
                       = Datatypes.Some x
                    /\ elastic.Values (elastic.FromPointer p) = Slice [x])
      /\ (p = Datatypes.None ->
          elastic.Pointer (elastic.FromPointer p) = Datatypes.None
          /\ elastic.Values (elastic.FromPointer p) = nil_slice))
  /\ (forall t : T,
        elastic.Value (elastic.FromValue t) = t
        /\ elastic.Values (elastic.FromValue t) = Slice [t]
        /\ elastic_is_defined_with (elastic.FromValue t) (Slice [opt.Some t])
        /\ elastic.FromValue t = elastic.FromValues (Slice [t])).
Proof.
  split.
  - intros [x|]; (split; [|split]).
    + split; discriminate.
    + intros y Hy. inversion Hy; subst. repeat split.
    + discriminate.
    + split; reflexivity.
    + discriminate.
    + intros _. split; reflexivity.
  - intros t. repeat split.
Qed.

(** X18. WrapPointer keeps the pointer: Value gives it back, also nil, and the
    result is undefined exactly for nil. *)
Theorem Elastic_WrapPointer_Value : forall p : option T,
  elastic.Value (elastic.WrapPointer p) = p
  /\ (elastic.IsUndefined (elastic.WrapPointer p) = true
      <-> p = Datatypes.None)
  /\ (elastic.IsDefined (elastic.WrapPointer p) = true
      <-> p <> Datatypes.None).
Proof.
  intros [x|]; repeat split; try discriminate; try reflexivity.
  intros Hc. now contradiction Hc.
Qed.

Lemma FromPointers_fold (ps : list (option T)) :
  forall acc : list (opt.Option T),
  fold_left
    (fun opts p =>
       match p with
       | Datatypes.None => append opts (Slice [opt.None])
       | Datatypes.Some x => append opts (Slice [opt.Some x])
       end)
    ps (Slice acc)
  = Slice (acc ++ map (fun p => match p with
                                | Datatypes.None => opt.None
                                | Datatypes.Some x => opt.Some x
                                end) ps).
Proof.
  induction ps as [|p ps IH]; intros acc; simpl.
  - now rewrite app_nil_r.
  - destruct p as [x|]; simpl; rewrite IH, <- app_assoc; reflexivity.
Qed.

(** X19. FromPointers of methods.go appends to options made with the length of
    its argument: the result holds one none per pointer, followed by the
    converted pointers (none for nil, some of the value pointed at
    otherwise), twice as many elements as there are pointers. *)
Theorem Elastic_FromPointers_leading_nones : forall ps : slice (option T),
  elastic.FromPointers ps
  = elastic.FromOptions
      (Slice (repeat opt.None (len ps)
              ++ map (fun p => match p with
                               | Datatypes.None => opt.None
                               | Datatypes.Some x => opt.Some x
                               end) (elems ps)))
  /\ len (und.Get (elastic.inner (elastic.FromPointers ps))) = 2 * len ps.
Proof.
  intros ps.
  assert (Heq : elastic.FromPointers ps
                = elastic.FromOptions
                    (Slice (repeat opt.None (len ps)
                            ++ map (fun p => match p with
                                             | Datatypes.None => opt.None
                                             | Datatypes.Some x => opt.Some x
                                             end) (elems ps)))).
  { unfold elastic.FromPointers, make. cbv zeta.
    now rewrite FromPointers_fold. }
  split; [exact Heq|]. rewrite Heq. unfold len. simpl.
  rewrite length_app, repeat_length, length_map. lia.
Qed.

End Elastic_accessors.

(** ** Elastic: UnmarshalXML on any receiver *)

Section Elastic_XML_accumulates.
Context {Err T : Type} `{Zero T}.
Variables Decoder StartElement : Type.
Variable DecodeElement :
  Decoder -> StartElement -> Options T -> Decoder * Options T * error Err.

(** X20. Whatever the receiver holds, a successful UnmarshalXML leaves a
    defined Elastic whose elements are those the receiver had followed by
    the decoded ones; a failing one returns the decoder's error and leaves
    the receiver as it was. The decoder has advanced in both cases. *)
Theorem Elastic_UnmarshalXML_accumulates :
  forall (d d' : Decoder) (start : StartElement) (o : elastic.Elastic T)
         (t : Options T) (err : error Err),
  DecodeElement d start zero = (d', t, err) ->
  match err with
  | nil_error =>
      exists o',
        elastic.UnmarshalXML DecodeElement d start o = (d', o', nil_error)
        /\ elastic.IsDefined o' = true
        /\ elems (und.Get (elastic.inner o'))
           = (elems (und.Get (elastic.inner o)) ++ elems t)%list
  | an_error e =>
      elastic.UnmarshalXML DecodeElement d start o = (d', o, an_error e)
  end.
Proof.
  intros d d' start o t err Hdec. destruct err as [|e].
  - unfold elastic.UnmarshalXML. rewrite Hdec.
    destruct (Nat.eqb_spec (len (und.Get (elastic.inner o))) 0) as [Hz|Hnz].
    + eexists. split; [reflexivity|]. split; [reflexivity|].
      unfold len in Hz. apply length_zero_iff_nil in Hz. now rewrite Hz.
    + eexists. split; [reflexivity|].
      destruct o as [[s [s' vv]]].
      unfold elastic.inner, und.Get, und.IsDefined, opt.IsSome, opt.Value
        in Hnz |- *; simpl in Hnz |- *.
      destruct s, s'; simpl in Hnz; try (now contradiction Hnz).
      destruct vv as [|[|x l]]; try (now contradiction Hnz).
      split; reflexivity.
  - unfold elastic.UnmarshalXML. now rewrite Hdec.
Qed.

End Elastic_XML_accumulates.

(** ** Elastic: the JSON codec beyond FromValues *)

Section Elastic_JSON_more.
Context {Err T : Type} `{Zero T} `{JSON Err T} `{Scanner Err}.




Lemma round_trip_tokens_marshal (os : list (opt.Option T)) (ws : list string) :
  Forall2 round_trip_token os ws -> Forall2 element_token os ws.
Proof.
  induction 1 as [|o w os ws Ho _ IH]; constructor; try assumption.
  destruct Ho as [[-> ->] | (a & -> & [Hm _] & _)].
  - left. split; reflexivity.
  - right. split; [reflexivity | exact Hm].
Qed.

Lemma round_trip_tokens_unmarshal (os : list (opt.Option T))
  (ws : list string) :
  Forall2 round_trip_token os ws -> unmarshal_elements ws = (os, nil_error).
Proof.
  induction 1 as [|o w os ws Ho _ IH]; simpl; [reflexivity|].
  destruct Ho as [[-> ->] | (a & -> & [_ Hu] & Hw)].
  - unfold opt.UnmarshalJSON. simpl. now rewrite IH.
  - unfold opt.UnmarshalJSON.
    destruct (String.eqb_spec w "null") as [|_]; [contradiction|].
    change (opt.v (zero : opt.Option T)) with (zero : T).
    now rewrite Hu, IH.
Qed.

(** X22. Round trip of a defined Elastic with a non-nil backing slice of nones
    and somes: when each some holds a value that T's codec round-trips
    with an encoding other than the null literal, and the scanner cuts the
    array text into the element tokens, the Elastic encodes as the array
    of the tokens (the null literal for each none) and the array decodes
    to the same Elastic, whatever the receiver held. *)
Theorem Elastic_JSON_round_trip_options :
  forall (os : list (opt.Option T)) (ws : list string),
  Forall2 round_trip_token os ws ->
  arrayElements (array_text ws) = Ok (Datatypes.Some ws) ->
  elastic.MarshalJSON (elastic.FromOptions (Slice os)) = Ok (array_text ws)
  /\ forall e0 : elastic.Elastic T,
       elastic.UnmarshalJSON (array_text ws) e0
       = (elastic.FromOptions (Slice os), nil_error).
Proof.
  intros os ws Htok Hscan. split.
  - unfold elastic.MarshalJSON, json_Marshal_Und, und.MarshalJSON. simpl.
    now rewrite (marshal_elements_tokens (round_trip_tokens_marshal Htok)).
  - intros e0. unfold elastic.UnmarshalJSON.
    destruct (array_text_shape ws) as (-> & -> & ->). simpl.
    unfold unmarshal_slice. rewrite Hscan.
    now rewrite (round_trip_tokens_unmarshal Htok).
Qed.

(** X23. A null and an undefined Elastic both encode as the null literal, which
    decodes to Null whatever the receiver held: an undefined Elastic does
    not come back undefined. *)
Theorem Elastic_null_literal_round_trip : forall e0 : elastic.Elastic T,
  elastic.MarshalJSON (elastic.Null (T:=T)) = Ok (Err:=Err) "null"%string
  /\ elastic.MarshalJSON (elastic.Undefined (T:=T))
     = Ok (Err:=Err) "null"%string
  /\ elastic.UnmarshalJSON "null" e0 = (elastic.Null, nil_error (Err:=Err))
  /\ elastic.IsUndefined (elastic.Null (T:=T)) = false.
Proof.
  intros e0. repeat split.
Qed.


(** X25. When an element fails to encode, Elastic.MarshalJSON fails with the
    error of the first such element, wrapped once for the MarshalJSON of
    the Option and once for that of the Und. *)
Theorem Elastic_MarshalJSON_element_error :
  forall (pre post : list (opt.Option T)) (o : opt.Option T)
         (ws : list string) (e : Err),
  Forall2 element_token pre ws ->
  opt.IsSome o = true ->
  json_Marshal (opt.Value o) = Error e ->
  elastic.MarshalJSON (elastic.FromOptions (Slice (pre ++ o :: post)))
  = Error (MarshalerError (MarshalerError e)).
Proof.
  intros pre post o ws e Hpre Hs He.
  unfold elastic.MarshalJSON, json_Marshal_Und, und.MarshalJSON. simpl.
  assert (Hel : marshal_elements (pre ++ o :: post)
                = Error (MarshalerError e)).
  { induction Hpre as [|p w pre ws Hp _ IH]; simpl.
    - unfold opt.MarshalJSON. unfold opt.IsSome in Hs.
      unfold opt.Value in He. now rewrite Hs, He.
    - destruct Hp as [[Hn ->] | [Hsome Hw]]; unfold opt.MarshalJSON.
      + unfold opt.IsNone, opt.IsSome in Hn. rewrite Hn. now rewrite IH.
      + unfold opt.IsSome in Hsome. unfold opt.Value in Hw.
        rewrite Hsome. simpl. rewrite Hw. now rewrite IH. }
  now rewrite Hel.
Qed.

End Elastic_JSON_more.

(** ** The further properties on the concrete instances *)

(** Option's round trip on *bool. *)
Lemma Option_JSON_round_trip_witness :
  opt.MarshalJSON (opt.Some (Datatypes.Some true)) = Ok (Err:=string) "true"
  /\ opt.UnmarshalJSON "true" opt.None
     = (opt.Some (Datatypes.Some true), nil_error (Err:=string)).
Proof.
  assert (Henc : JSONEncodable (Err:=string) (Datatypes.Some true) "true")
    by (split; reflexivity).
  assert (Hw : "true" <> "null") by discriminate.
  destruct (Option_JSON_round_trip Henc Hw) as (Hm & Hu & _).
  split; [exact Hm | apply Hu; reflexivity].
Defined.

(** A failing and a succeeding Option.UnmarshalJSON on *bool. *)
Lemma Option_UnmarshalJSON_outcomes_witness :
  opt.IsSome (fst (opt.UnmarshalJSON (Err:=string) "x"
                     (opt.Some (Datatypes.Some true))))
  = true
  /\ opt.IsSome (fst (opt.UnmarshalJSON (Err:=string) (T:=option bool)
                        "false" opt.None))
     = true.
Proof.
  split.
  - destruct (Option_UnmarshalJSON_outcomes (Err:=string) "x"
                (opt.Some (Datatypes.Some true))) as (_ & _ & Hfail).
    destruct (Hfail (opt.Some (Datatypes.Some true))
                "cannot unmarshal into Go value of type bool" eq_refl)
      as (_ & Hs & _).
    exact Hs.
  - destruct (Option_UnmarshalJSON_outcomes (Err:=string) (T:=option bool)
                "false" opt.None) as (_ & Hok & _).
    destruct (Hok (opt.Some (Datatypes.Some false)) eq_refl) as (_ & Hsome).
    apply Hsome. discriminate.
Defined.

(** Und's round trip on *bool. *)
Lemma Und_JSON_round_trip_witness :
  und.MarshalJSON (und.Defined (Datatypes.Some false))
  = Ok (Err:=string) "false"
  /\ und.UnmarshalJSON "false" und.Undefined
     = (und.Defined (Datatypes.Some false), nil_error (Err:=string)).
Proof.
  assert (Henc : JSONEncodable (Err:=string) (Datatypes.Some false) "false")
    by (split; reflexivity).
  assert (Hw : "false" <> "null") by discriminate.
  destruct (Und_JSON_round_trip Henc Hw) as (Hm & Hu).
  split; [exact Hm | apply Hu].
Defined.

(** The test suite's pairs as Und values: 1 and 31 are equal by the
    method of CustomizedEquality, undefined and null are not equal. *)
Lemma Und_Equal_states_witness :
  und.Equal (und.Defined {| sample.V_addr := 1; sample.V_val := 1 |})
            (und.Defined {| sample.V_addr := 2; sample.V_val := 31 |})
  = Returns true
  /\ und.Equal (und.Undefined (T:=sample.CustomizedEquality)) und.Null
     = Returns false.
Proof.
  split.
  - destruct (Und_Equal_states
                (und.Defined {| sample.V_addr := 1; sample.V_val := 1 |})
                (und.Defined {| sample.V_addr := 2; sample.V_val := 31 |}))
      as [Hdef _].
    rewrite (Hdef eq_refl eq_refl). reflexivity.
  - destruct (Und_Equal_states
                (und.Undefined (T:=sample.CustomizedEquality)) und.Null)
      as [_ Hother].
    rewrite Hother; [reflexivity | left; reflexivity].
Defined.

(** AndThen on a function with canonical results. *)
Lemma Option_AndThen_laws_witness :
  opt.FlattenOption
    (opt.MapOption (opt.Some 5%Z)
       (fun x => if (x <? 3)%Z then opt.Some x else opt.None))
  = opt.None.
Proof.
  destruct (Option_AndThen_laws (opt.Some 5%Z)
              (fun x => if (x <? 3)%Z then opt.Some x else opt.None)
              opt.Some) as (_ & _ & _ & Hflat).
  rewrite Hflat; [reflexivity|].
  intros x. unfold canonical.
  destruct (x <? 3)%Z; [discriminate | reflexivity].
Defined.

(** Two elements arriving one by one. *)
Lemma Elastic_UnmarshalXML_accumulates_witness :
  exists o',
    elastic.UnmarshalXML
      (fun (d : nat) (_ : string) (_ : Options bool) =>
         (S d, Slice [opt.Some true], nil_error (Err:=string)))
      0 "item" (elastic.FromValue false)
    = (1, o', nil_error)
    /\ elastic.IsDefined o' = true
    /\ elems (und.Get (elastic.inner o'))
       = [opt.Some false; opt.Some true].
Proof.
  exact (Elastic_UnmarshalXML_accumulates
           (fun (d : nat) (_ : string) (_ : Options bool) =>
              (S d, Slice [opt.Some true], nil_error (Err:=string)))
           0 "item" (elastic.FromValue false) eq_refl).
Defined.


(** A some and a none of *bool through the codec. *)
Lemma Elastic_JSON_round_trip_options_witness :
  elastic.MarshalJSON
    (elastic.FromOptions (Slice [opt.Some (Datatypes.Some true); opt.None]))
  = Ok (Err:=string) "[true,null]"
  /\ elastic.UnmarshalJSON "[true,null]" elastic.Null
     = (elastic.FromOptions
          (Slice [opt.Some (Datatypes.Some true); opt.None]),
        nil_error (Err:=string)).
Proof.
  assert (Htok : Forall2 (round_trip_token (Err:=string))
                   [opt.Some (Datatypes.Some true); opt.None]
                   ["true"; "null"]).
  { constructor.
    - right. exists (Datatypes.Some true).
      split; [reflexivity|]. split; [split; reflexivity | discriminate].
    - constructor; [left; split; reflexivity | constructor]. }
  assert (Hscan : arrayElements (Err:=string) (array_text ["true"; "null"])
                  = Ok (Datatypes.Some ["true"; "null"])) by reflexivity.
  destruct (Elastic_JSON_round_trip_options Htok Hscan) as [Hm Hu].
  split; [exact Hm | exact (Hu elastic.Null)].
Defined.


(** An element of a type the library does not encode. *)
Lemma Elastic_MarshalJSON_element_error_witness :
  elastic.MarshalJSON
    (elastic.FromOptions (Slice [opt.None; opt.Some tt; opt.None]))
  = Error ("json: error calling MarshalJSON: "
           ++ "json: error calling MarshalJSON: "
           ++ "json: unsupported type: func()").
Proof.
  assert (Hpre : Forall2 (element_token (Err:=string) (T:=unit))
                   [opt.None] ["null"]).
  { constructor; [left; split; reflexivity | constructor]. }
  exact (Elastic_MarshalJSON_element_error (Err:=string) (T:=unit)
           (e:="json: unsupported type: func()") [opt.None] (opt.Some tt)
           Hpre eq_refl eq_refl).
Defined.
